(** * A shallow embedding of the e-commerce crawl and load pipeline

    The development follows [web_scraper.py] ([EcommerceScraper]),
    [basic_csv_loader.py] ([SimplePostgreSQLLoader]) and [config.py].

    Conventions of the embedding.
    - A Python [str] is a [string]; its characters are the Unicode code
      points below 256, carried by [ascii].
    - A Python [float] is a [pyfloat]: [PFin q] stands for the binary64
      number nearest to the rational [q] (conversion overflows to an
      infinity).  Rounding to nearest is monotone and leaves 0, 5 and the
      small integers unchanged, so order comparisons against them can be
      read off [q].
    - Code with effects (network, browser, clock, log, pacing delay, file
      system, database) is written in the monad [M]: it threads a [world]
      that records the trace of effects, and it may raise.  What the outside
      world answers is given by an [env] of oracles that see the trace. *)

From Stdlib Require Import ZArith QArith String Ascii List Lia Lqa DecimalString.
From stdpp Require Import gmap strings list.

Open Scope string_scope.
Open Scope Z_scope.

(* ===================================================================== *)
(** * Python text primitives *)
(* ===================================================================== *)

Module PyStr.

Definition code (c : ascii) : N := N_of_ascii c.

(** [str.isdecimal], also the class [\d] of [re] on [str] patterns. *)
Definition isdecimal (c : ascii) : bool :=
  ((48 <=? code c) && (code c <=? 57))%N.

(** [str.isdigit]: the decimal digits and the superscripts 1, 2, 3. *)
Definition isdigit (c : ascii) : bool :=
  (isdecimal c || (code c =? 178) || (code c =? 179) || (code c =? 185))%N.

(** [str.isspace], the characters removed by [strip()] and [split()]. *)
Definition isspace (c : ascii) : bool :=
  (((9 <=? code c) && (code c <=? 13)) || ((28 <=? code c) && (code c <=? 32))
   || (code c =? 133) || (code c =? 160))%N.

Definition digit_val (c : ascii) : N := (code c - 48)%N.

(** The characters that price cleaning keeps: digits and the dot. *)
Definition price_char (c : ascii) : bool := isdigit c || Ascii.eqb c ".".

Definition is_empty (s : string) : bool :=
  match s with EmptyString => true | String _ _ => false end.

(** [''.join(c for c in s if keep(c))] *)
Fixpoint filter_chars (keep : ascii -> bool) (s : string) : string :=
  match s with
  | EmptyString => EmptyString
  | String c s' =>
      if keep c then String c (filter_chars keep s') else filter_chars keep s'
  end.

Fixpoint map_chars (f : ascii -> ascii) (s : string) : string :=
  match s with
  | EmptyString => EmptyString
  | String c s' => String (f c) (map_chars f s')
  end.

Fixpoint all_chars (p : ascii -> bool) (s : string) : bool :=
  match s with
  | EmptyString => true
  | String c s' => p c && all_chars p s'
  end.

Fixpoint lstrip (s : string) : string :=
  match s with
  | EmptyString => EmptyString
  | String c s' => if isspace c then lstrip s' else s
  end.

Fixpoint rstrip (s : string) : string :=
  match s with
  | EmptyString => EmptyString
  | String c s' =>
      let r := rstrip s' in
      if isspace c && is_empty r then EmptyString else String c r
  end.

(** [s.strip()] *)
Definition strip (s : string) : string := rstrip (lstrip s).

(** [sub in s] *)
Fixpoint contains (sub s : string) : bool :=
  String.prefix sub s ||
  match s with
  | EmptyString => false
  | String _ s' => contains sub s'
  end.

(** [s.split()]: the maximal runs of non-space characters, in order.
    [cur] is the run being read. *)
Fixpoint split_ws_from (cur s : string) : list string :=
  match s with
  | EmptyString => if is_empty cur then [] else [cur]
  | String c s' =>
      if isspace c
      then (if is_empty cur then split_ws_from EmptyString s'
            else cur :: split_ws_from EmptyString s')
      else split_ws_from (cur ++ String c EmptyString) s'
  end.

Definition split_ws (s : string) : list string := split_ws_from EmptyString s.

(** [s.split(sep)] for a one-character separator: never empty. *)
Fixpoint split_on_from (sep : ascii) (cur s : string) : list string :=
  match s with
  | EmptyString => [cur]
  | String c s' =>
      if Ascii.eqb c sep
      then cur :: split_on_from sep EmptyString s'
      else split_on_from sep (cur ++ String c EmptyString) s'
  end.

Definition split_on (sep : ascii) (s : string) : list string :=
  split_on_from sep EmptyString s.

(** [str.lower] on one character: A-Z and the Latin-1 capitals. *)
Definition lower_char (c : ascii) : ascii :=
  if (((65 <=? code c) && (code c <=? 90))
      || ((192 <=? code c) && (code c <=? 222) && negb (code c =? 215)))%N
  then ascii_of_N (code c + 32) else c.

Definition lower (s : string) : string := map_chars lower_char s.

(** [s.replace(a, b)] for one-character [a] and [b]. *)
Definition replace_char (a b : ascii) (s : string) : string :=
  map_chars (fun c => if Ascii.eqb c a then b else c) s.

(** [str(n)] for an [int]. *)
Definition str_of_int (n : Z) : string :=
  match n with
  | Z0 => "0"
  | Zpos p => NilEmpty.string_of_uint (Pos.to_uint p)
  | Zneg p => String "-" (NilEmpty.string_of_uint (Pos.to_uint p))
  end.

End PyStr.

(* ===================================================================== *)
(** * Python floats and [float(str)] *)
(* ===================================================================== *)

Inductive pyfloat : Type :=
| PFin (q : Q)
| PInf (negative : bool)
| PNaN.

Module PyFloat.
Import PyStr.

Definition zero : pyfloat := PFin 0.

(** [float(n)] for an [int] (exact in the range the code uses it). *)
Definition float_of_int (n : Z) : pyfloat := PFin (inject_Z n).

(** [a <= b] on floats: false as soon as a NaN is involved. *)
Definition le (a b : pyfloat) : bool :=
  match a, b with
  | PNaN, _ | _, PNaN => false
  | PInf true, _ => true
  | _, PInf false => true
  | PFin x, PFin y => Qle_bool x y
  | _, _ => false
  end.

(** [a == b] on floats. *)
Definition eq (a b : pyfloat) : bool :=
  match a, b with
  | PFin x, PFin y => Qeq_bool x y
  | PInf s, PInf t => Bool.eqb s t
  | _, _ => false
  end.

(** The value [m * 10^e] of a decimal numeral. *)
Definition decimal_value (m : N) (e : Z) : Q :=
  if (0 <=? e)%Z then inject_Z (Z.of_N m * 10 ^ e)
  else Qmake (Z.of_N m) (Z.to_pos (10 ^ (- e))).

(** The tail of a [digitpart]: digits, each optionally preceded by one
    underscore.  [m] accumulates the digits read, [n] counts them. *)
Fixpoint digits_tail (s : string) (m : N) (n : nat) : N * nat * string :=
  match s with
  | String c s' =>
      if isdecimal c then digits_tail s' (m * 10 + digit_val c)%N (S n)
      else
        match Ascii.eqb c "_", s' with
        | true, String d s'' =>
            if isdecimal d then digits_tail s'' (m * 10 + digit_val d)%N (S n)
            else (m, n, s)
        | _, _ => (m, n, s)
        end
  | EmptyString => (m, n, s)
  end.

(** [digitpart ::= digit (["_"] digit)*], continuing the mantissa [m]. *)
Definition digitpart (s : string) (m : N) : option (N * nat * string) :=
  match s with
  | String c s' =>
      if isdecimal c then Some (digits_tail s' (m * 10 + digit_val c)%N 1%nat)
      else None
  | EmptyString => None
  end.

(** [exponent ::= ("e" | "E") ["+" | "-"] digitpart]; an absent exponent
    is 0 and leaves the text untouched. *)
Definition exponent (s : string) : option (Z * string) :=
  match s with
  | String c s' =>
      if Ascii.eqb c "e" || Ascii.eqb c "E" then
        let '(neg, body) :=
          match s' with
          | String d r =>
              if Ascii.eqb d "-" then (true, r)
              else if Ascii.eqb d "+" then (false, r)
              else (false, s')
          | EmptyString => (false, s')
          end in
        match digitpart body 0 with
        | Some (v, _, rest) =>
            Some (if neg then (- Z.of_N v) else Z.of_N v, rest)
        | None => None
        end
      else Some (0, s)
  | EmptyString => Some (0, s)
  end.

(** [number ::= [digitpart] "." digitpart | digitpart ["."]]: the mantissa
    and the count of fraction digits. *)
Definition number (s : string) : option (N * nat * string) :=
  match digitpart s 0 with
  | Some (m, _, rest) =>
      match rest with
      | String c r =>
          if Ascii.eqb c "." then
            match digitpart r m with
            | Some (m', k, rest') => Some (m', k, rest')
            | None => Some (m, 0%nat, r)
            end
          else Some (m, 0%nat, rest)
      | EmptyString => Some (m, 0%nat, rest)
      end
  | None =>
      match s with
      | String c r => if Ascii.eqb c "." then digitpart r 0 else None
      | EmptyString => None
      end
  end.

(** [floatnumber ::= number [exponent]], up to the end of the text. *)
Definition floatnumber (s : string) : option Q :=
  match number s with
  | Some (m, k, rest) =>
      match exponent rest with
      | Some (e, EmptyString) => Some (decimal_value m (e - Z.of_nat k))
      | _ => None
      end
  | None => None
  end.

(** The unsigned part of a float literal. *)
Definition unsigned_value (negative : bool) (s : string) : option pyfloat :=
  let l := lower s in
  if String.eqb l "inf" || String.eqb l "infinity" then Some (PInf negative)
  else if String.eqb l "nan" then Some PNaN
  else
    match floatnumber s with
    | Some q => Some (PFin (if negative then Qopp q else q))
    | None => None
    end.

(** [float(s)]: [None] is [ValueError]. *)
Definition parse (s : string) : option pyfloat :=
  match strip s with
  | String c r =>
      if Ascii.eqb c "-" then unsigned_value true r
      else if Ascii.eqb c "+" then unsigned_value false r
      else unsigned_value false (String c r)
  | EmptyString => unsigned_value false EmptyString
  end.

End PyFloat.

(* ===================================================================== *)
(** * Document trees *)
(* ===================================================================== *)

(** A parsed page: what [BeautifulSoup(..., 'html.parser')] builds and what
    the browser renders.  [attrs] is the attribute dict of a tag. *)
#[warnings="-register-all"] Inductive node : Type :=
| Elem (tag : string) (attrs : list (string * string)) (children : list node)
| Text (s : string).

Module Dom.
Import PyStr.

Fixpoint lookup_attr (k : string) (attrs : list (string * string)) : option string :=
  match attrs with
  | [] => None
  | (k', v) :: rest => if String.eqb k k' then Some v else lookup_attr k rest
  end.

(** [tag.get(k)]: [None] when the attribute is absent. *)
Definition get (k : string) (n : node) : option string :=
  match n with
  | Elem _ attrs _ => lookup_attr k attrs
  | Text _ => None
  end.

Definition classes (n : node) : list string :=
  match get "class" n with
  | Some v => split_ws v
  | None => []
  end.

Definition has_class (c : string) (n : node) : bool :=
  existsb (String.eqb c) (classes n).

Definition has_tag (t : string) (n : node) : bool :=
  match n with
  | Elem t' _ _ => String.eqb t t'
  | Text _ => false
  end.

(** The proper descendants of a node, in document order. *)
Fixpoint descendants (n : node) : list node :=
  match n with
  | Elem _ _ cs =>
      (fix over (l : list node) : list node :=
         match l with
         | [] => []
         | c :: l' => c :: descendants c ++ over l'
         end) cs
  | Text _ => []
  end.

(** [.text]: the strings below a node, concatenated. *)
Fixpoint text (n : node) : string :=
  match n with
  | Text s => s
  | Elem _ _ cs =>
      (fix over (l : list node) : string :=
         match l with
         | [] => EmptyString
         | c :: l' => text c ++ over l'
         end) cs
  end.

(** [n.find_all(tag, class_=cls)] *)
Definition find_all (t cls : string) (n : node) : list node :=
  List.filter (fun d => has_tag t d && has_class cls d) (descendants n).

(** [n.find(tag, class_=cls)] *)
Definition find (t cls : string) (n : node) : option node :=
  head (find_all t cls n).

(** [n.find(tag)] *)
Definition find_tag (t : string) (n : node) : option node :=
  head (List.filter (has_tag t) (descendants n)).

(** [find_elements(By.CLASS_NAME, cls)] *)
Definition find_elements (cls : string) (n : node) : list node :=
  List.filter (has_class cls) (descendants n).

End Dom.

(* ===================================================================== *)
(** * Effects: the world, the oracles and the monad *)
(* ===================================================================== *)

Inductive level : Type := INFO | WARNING | ERROR.

Inductive exn : Type :=
| ConnectionError                (* requests.exceptions.ConnectionError *)
| Timeout                        (* requests.exceptions.Timeout *)
| HTTPError (status : Z)         (* raised by raise_for_status *)
| ValueError
| AttributeError
| WebDriverException
| TimeoutException               (* WebDriverWait.until gave up *)
| NoSuchElementException
| FileError                      (* read_csv could not read or parse *)
| DatabaseError.                 (* the store refused a statement *)

(** Tabular data as the loader sees it. *)
Inductive dtype : Type := Int64 | Float64 | BoolT | Object | Datetime64.

Inductive cell : Type :=
| NaN
| NaT
| CInt (n : Z)
| CFloat (x : pyfloat)
| CBool (b : bool)
| CStr (s : string)
| CTime (t : string).

Record frame : Type := mkFrame {
  columns : list string;
  dtypes : list dtype;
  rows : list (list cell)
}.

Inductive event : Type :=
| EvGet (url : string)                 (* session.get(url) *)
| EvRandom                             (* random.uniform *)
| EvSleep (seconds : Q)                (* time.sleep *)
| EvNow                                (* datetime.now() *)
| EvLog (lvl : level) (msg : string) (e : option exn)
| EvLaunch (options : list string)     (* webdriver.Chrome(options=...) *)
| EvNavigate (url : string)            (* driver.get(url) *)
| EvWait (cls : string)                (* WebDriverWait(driver, 10).until *)
| EvFindElements (cls : string)        (* driver.find_elements *)
| EvQuit                               (* driver.quit() *)
| EvReadCsv (path : string)            (* pd.read_csv *)
| EvToSql (table : string) (rows_written : nat)   (* df.to_sql, replace *)
| EvQuery (sql : string).              (* a read issued on the engine *)

Inductive http_outcome : Type :=
| Response (status : Z) (content : node)
| ConnectionFailed
| TimedOut.

(** The lists the scrapers append to live in the store, since an append
    survives an exception raised later in the same [try] block. *)
Record product : Type := mkProduct {
  name : string;
  price : pyfloat;
  rating : pyfloat;
  image_url : option string;           (* [None] is Python's [None] *)
  category : string;
  scraped_at : string;
  source : string
}.

Record review : Type := mkReview {
  product_url : string;
  reviewer_name : string;
  review_rating : pyfloat;
  review_text : string;
  review_date : string;
  review_scraped_at : string
}.

Record world : Type := mkWorld {
  trace : list event;                  (* effects so far, oldest first *)
  products : list product;             (* the list [products] *)
  reviews : list review;               (* the list [reviews] *)
  tables : gmap string frame           (* the relational store *)
}.

(** What the outside answers, given the effects so far. *)
Record env : Type := mkEnv {
  http : list event -> string -> http_outcome;
  random : list event -> N * positive;          (* numerator, denominator *)
  clock : list event -> string;                 (* isoformat of now() *)
  chrome_starts : list event -> list string -> bool;
  navigates : list event -> string -> bool;
  rendered : list event -> node;                   (* the rendered page *)
  read_csv : list event -> string -> option frame;
  to_datetime : list cell -> option (list cell);
  db_accepts : list event -> string -> frame -> bool
}.

Inductive result (A : Type) : Type :=
| Ok (a : A)
| Raise (e : exn).
Arguments Ok {A} a.
Arguments Raise {A} e.

Definition M (A : Type) : Type := world -> result A * world.

Definition ret {A} (a : A) : M A := fun w => (Ok a, w).

Definition bind {A B} (m : M A) (k : A -> M B) : M B :=
  fun w =>
    match m w with
    | (Ok a, w') => k a w'
    | (Raise e, w') => (Raise e, w')
    end.

Definition raise {A} (e : exn) : M A := fun w => (Raise e, w).

(** [try: m  except Exception as e: h e] *)
Definition try_except {A} (m : M A) (h : exn -> M A) : M A :=
  fun w =>
    match m w with
    | (Ok a, w') => (Ok a, w')
    | (Raise e, w') => h e w'
    end.

(** [try: m  finally: f] *)
Definition try_finally {A} (m : M A) (f : M unit) : M A :=
  fun w =>
    match m w with
    | (r, w') =>
        match f w' with
        | (Ok _, w'') => (r, w'')
        | (Raise e, w'') => (Raise e, w'')
        end
    end.

Declare Scope monad_scope.
Delimit Scope monad_scope with monad.
Notation "x <- m ;; k" := (bind m (fun x => k))
  (at level 100, m at next level, right associativity) : monad_scope.
Notation "m ;;; k" := (bind m (fun _ => k))
  (at level 100, right associativity) : monad_scope.
Open Scope monad_scope.

(** [for x in xs: body x] *)
Fixpoint for_each {A} (xs : list A) (body : A -> M unit) : M unit :=
  match xs with
  | [] => ret tt
  | x :: xs' => body x ;;; for_each xs' body
  end.

Definition emit (ev : event) : M unit :=
  fun w => (Ok tt, mkWorld (trace w ++ [ev]) (products w) (reviews w) (tables w)).

(** Ask an oracle about the effects so far. *)
Definition ask {A} (oracle : list event -> A) : M A :=
  fun w => (Ok (oracle (trace w)), w).

Definition log (lvl : level) (msg : string) (e : option exn) : M unit :=
  emit (EvLog lvl msg e).

(** Three shapes of statement about a computation. *)
Module Run.

(** [m] never raises. *)
Definition total {A} (m : M A) : Prop := forall w, exists a, fst (m w) = Ok a.


(** [m] extends the observation [obs] by exactly [l]. *)
Definition appends {A B} (obs : world -> list B) (l : list B) (m : M A) : Prop :=
  forall w, obs (snd (m w)) = (obs w ++ l)%list.



(** An observation that does not look at the trace. *)
Definition trace_blind {B} (obs : world -> B) : Prop :=
  forall w t, obs (mkWorld t (products w) (reviews w) (tables w)) = obs w.

End Run.

Definition append_product (p : product) : M unit :=
  fun w => (Ok tt, mkWorld (trace w) (products w ++ [p]) (reviews w) (tables w)).

Definition append_review (r : review) : M unit :=
  fun w => (Ok tt, mkWorld (trace w) (products w) (reviews w ++ [r]) (tables w)).

Definition new_products : M unit :=
  fun w => (Ok tt, mkWorld (trace w) [] (reviews w) (tables w)).

Definition new_reviews : M unit :=
  fun w => (Ok tt, mkWorld (trace w) (products w) [] (tables w)).

Definition get_products : M (list product) := fun w => (Ok (products w), w).

Definition get_reviews : M (list review) := fun w => (Ok (reviews w), w).

Definition set_table (t : string) (df : frame) : M unit :=
  fun w => (Ok tt, mkWorld (trace w) (products w) (reviews w) (<[t := df]> (tables w))).

(** [range(a, b)] *)
Definition range (a b : Z) : list Z :=
  map (fun i => a + Z.of_nat i) (seq 0 (Z.to_nat (b - a))).

(** [l[:n]], with Python's reading of a negative bound. *)
Definition slice_to {A} (n : Z) (l : list A) : list A :=
  if 0 <=? n then firstn (Z.to_nat n) l
  else firstn (length l - Z.to_nat (- n)) l.

(* ===================================================================== *)
(** * config.py *)
(* ===================================================================== *)

Module Config.

Record ScrapingConfig : Type := mkScrapingConfig {
  headless : bool;
  delay_range : Z * Z;
  max_retries : Z;
  timeout : Z;
  user_agents : list string
}.

Definition SCRAPING_CONFIG : ScrapingConfig :=
  {| headless := true;
     delay_range := (1, 3);
     max_retries := 3;
     timeout := 30;
     user_agents :=
       [ "Mozilla/5.0 (Windows NT 10.0; Win64; x64) AppleWebKit/537.36 (KHTML, like Gecko) Chrome/91.0.4472.124 Safari/537.36";
         "Mozilla/5.0 (Macintosh; Intel Mac OS X 10_15_7) AppleWebKit/537.36 (KHTML, like Gecko) Chrome/91.0.4472.124 Safari/537.36";
         "Mozilla/5.0 (X11; Linux x86_64) AppleWebKit/537.36 (KHTML, like Gecko) Chrome/91.0.4472.124 Safari/537.36" ] |}.

End Config.

(* ===================================================================== *)
(** * web_scraper.py: [EcommerceScraper] *)
(* ===================================================================== *)

Module Scraper.
Import PyStr.

Record EcommerceScraper : Type := mkScraper {
  headless : bool;
  delay_range : Q * Q
}.

(** [EcommerceScraper()] with the defaults of [__init__]. *)
Definition default_scraper : EcommerceScraper :=
  {| headless := true; delay_range := (1%Q, 3%Q) |}.

(** The draw of [random.random()], in [[0, 1)]. *)
Definition unit_interval (r : N * positive) : Q :=
  Qmake (Z.of_N (fst r) mod Zpos (snd r)) (snd r).

(** [random.uniform(a, b)] *)
Definition random_uniform (E : env) (a b : Q) : M Q :=
  r <- ask (random E) ;;
  emit EvRandom ;;;
  ret (a + (b - a) * unit_interval r)%Q.

(** [time.sleep(d)]: a negative length is a [ValueError]. *)
Definition time_sleep (d : Q) : M unit :=
  if Qle_bool 0 d then emit (EvSleep d) else raise ValueError.

Definition _random_delay (E : env) (self : EcommerceScraper) : M unit :=
  delay <- random_uniform E (fst (delay_range self)) (snd (delay_range self)) ;;
  time_sleep delay.

(** [datetime.now().isoformat()] *)
Definition datetime_now (E : env) : M string :=
  t <- ask (clock E) ;;
  emit EvNow ;;;
  ret t.

(** [self.session.get(url)] *)
Definition session_get (E : env) (url : string) : M (Z * node) :=
  out <- ask (fun t => http E t url) ;;
  emit (EvGet url) ;;;
  match out with
  | Response status content => ret (status, content)
  | ConnectionFailed => raise ConnectionError
  | TimedOut => raise Timeout
  end.

(** [response.raise_for_status()]: client and server error statuses. *)
Definition raise_for_status (response : Z * node) : M unit :=
  let status := fst response in
  if (400 <=? status) && (status <? 600) then raise (HTTPError status)
  else ret tt.

(** [webdriver.Chrome(options=chrome_options)] *)
Definition webdriver_chrome (E : env) (options : list string) : M unit :=
  ok <- ask (fun t => chrome_starts E t options) ;;
  emit (EvLaunch options) ;;;
  if ok then ret tt else raise WebDriverException.

(** The arguments added to [Options()] before the launch. *)
Definition chrome_options (self : EcommerceScraper) : list string :=
  ((if headless self then ["--headless"] else []) ++
   ["--no-sandbox"; "--disable-dev-shm-usage"; "--disable-gpu";
    "--window-size=1920x1080"])%list.

(** Returns whether a driver was obtained ([false] is [None]). *)
Definition _setup_selenium_driver (E : env) (self : EcommerceScraper) : M bool :=
  try_except
    (webdriver_chrome E (chrome_options self) ;;;
     ret true)
    (fun e =>
       log ERROR "Failed to setup Chrome driver: " (Some e) ;;;
       log INFO "Please install ChromeDriver: https://chromedriver.chromium.org/" None ;;;
       ret false).

(** The body of the [try] is written in [option]: [None] stands for any
    exception, which the bare [except] turns into [0.0]. *)
Definition _clean_price (price_text : string) : pyfloat :=
  let attempt :=
    let cleaned := filter_chars price_char price_text in
    if negb (is_empty cleaned) then PyFloat.parse cleaned else Some (PFin 0) in
  match attempt with
  | Some v => v
  | None => PFin 0
  end.

Definition _extract_rating (rating_element : node) : pyfloat :=
  let attempt :=
    let rating_text := strip (Dom.text rating_element) in
    if contains "out of" rating_text then
      match split_ws rating_text with
      | first :: _ => PyFloat.parse first
      | [] => None
      end
    else if contains "/5" rating_text then
      match split_on "/" rating_text with
      | first :: _ => PyFloat.parse first
      | [] => None
      end
    else
      let stars := Dom.find_all "span" "star-filled" rating_element in
      match stars with
      | [] => Some (PFin 0)
      | _ :: _ => Some (PyFloat.float_of_int (Z.of_nat (length stars)))
      end in
  match attempt with
  | Some v => v
  | None => PFin 0
  end.

(** The longest prefix of decimal digits, and what follows it. *)
Fixpoint span_digits (s : string) : string * string :=
  match s with
  | String c s' =>
      if isdecimal c
      then let '(d, r) := span_digits s' in (String c d, r)
      else (EmptyString, s)
  | EmptyString => (EmptyString, EmptyString)
  end.

(** The match of [\d+\.?\d*] that starts at the head of [s], if any. *)
Definition match_number (s : string) : option string :=
  match span_digits s with
  | (EmptyString, _) => None
  | (d, String c r) =>
      if Ascii.eqb c "." then Some (d ++ String "." (fst (span_digits r)))
      else Some d
  | (d, EmptyString) => Some d
  end.

(** [re.findall(r'\d+\.?\d*', s)[0]] when there is a match. *)
Fixpoint first_number (s : string) : option string :=
  match match_number s with
  | Some m => Some m
  | None =>
      match s with
      | String _ s' => first_number s'
      | EmptyString => None
      end
  end.

Definition _extract_rating_from_text (rating_text : string) : pyfloat :=
  let attempt :=
    match first_number rating_text with
    | Some m => PyFloat.parse m
    | None => Some (PFin 0)
    end in
  match attempt with
  | Some v => v
  | None => PFin 0
  end.

(** A tag found by [find] is truthy, so each conditional of the dict
    literal tests only whether [find] returned [None]. *)
Definition _extract_product_data (E : env) (element : node) (category : string)
  : M (option product) :=
  try_except
    (let name := Dom.find "h3" "product-name" element in
     let price := Dom.find "span" "price" element in
     let rating := Dom.find "div" "rating" element in
     let image_url := Dom.find_tag "img" element in
     now <- datetime_now E ;;
     ret (Some
       {| name := match name with Some n => strip (Dom.text n) | None => "Unknown" end;
          price := _clean_price (match price with Some p => Dom.text p | None => "0" end);
          rating := match rating with Some r => _extract_rating r | None => PyFloat.float_of_int 0 end;
          image_url := match image_url with Some i => Dom.get "src" i | None => Some "" end;
          category := category;
          scraped_at := now;
          source := "competitor_site" |}))
    (fun e =>
       log WARNING "Error extracting product data: " (Some e) ;;;
       ret None).

(** [f"{base_url}/category/{category}?page={page}"] *)
Definition listing_url (base_url category : string) (page : Z) : string :=
  base_url ++ "/category/" ++ category ++ "?page=" ++ str_of_int page.

(** The body of [for element in product_elements]. *)
Definition collect_product (E : env) (category : string) (element : node) : M unit :=
  try_except
    (product_data <- _extract_product_data E element category ;;
     match product_data with
     | Some d => append_product d
     | None => ret tt
     end)
    (fun e => log WARNING "Failed to extract product data: " (Some e)).

(** The body of [for page in range(1, max_pages + 1)]. *)
Definition scrape_listing_page (E : env) (self : EcommerceScraper)
    (base_url category : string) (page : Z) : M unit :=
  let url := listing_url base_url category page in
  try_except
    (response <- session_get E url ;;
     raise_for_status response ;;;
     let soup := snd response in
     let product_elements := Dom.find_all "div" "product-item" soup in
     for_each product_elements (collect_product E category) ;;;
     _random_delay E self)
    (fun e => log ERROR ("Failed to scrape " ++ url ++ ": ") (Some e)).

(** The two nested loops of [scrape_product_listings]. *)
Definition crawl_categories (E : env) (self : EcommerceScraper)
    (base_url : string) (categories : list string) (max_pages : Z) : M unit :=
  for_each categories (fun category =>
    log INFO ("Scraping category: " ++ category) None ;;;
    for_each (range 1 (max_pages + 1)) (fun page =>
      scrape_listing_page E self base_url category page)).

(** The returned frame is the list of row dicts, in order. *)
Definition scrape_product_listings (E : env) (self : EcommerceScraper)
    (base_url : string) (categories : list string) (max_pages : Z)
  : M (list product) :=
  new_products ;;;
  crawl_categories E self base_url categories max_pages ;;;
  get_products.

(** [driver.get(url)] *)
Definition driver_get (E : env) (url : string) : M unit :=
  ok <- ask (fun t => navigates E t url) ;;
  emit (EvNavigate url) ;;;
  if ok then ret tt else raise WebDriverException.

(** [WebDriverWait(driver, 10).until(EC.presence_of_element_located(
    (By.CLASS_NAME, cls)))] *)
Definition wait_presence (E : env) (cls : string) : M unit :=
  emit (EvWait cls) ;;;
  page <- ask (rendered E) ;;
  match Dom.find_elements cls page with
  | [] => raise TimeoutException
  | _ :: _ => ret tt
  end.

(** [driver.find_elements(By.CLASS_NAME, cls)] *)
Definition driver_find_elements (E : env) (cls : string) : M (list node) :=
  emit (EvFindElements cls) ;;;
  page <- ask (rendered E) ;;
  ret (Dom.find_elements cls page).

(** [element.find_element(By.CLASS_NAME, cls)].  The [.text] of the element
    found is taken to be the strings below it. *)
Definition find_element (cls : string) (element : node) : M node :=
  match head (Dom.find_elements cls element) with
  | Some n => ret n
  | None => raise NoSuchElementException
  end.

(** An element returned by [find_element] is truthy, so the conditionals
    of the dict literal always take their first branch. *)
Definition _extract_review_data (E : env) (element : node) (product_url : string)
  : M (option review) :=
  try_except
    (reviewer <- find_element "reviewer-name" element ;;
     rating <- find_element "review-rating" element ;;
     text <- find_element "review-text" element ;;
     date <- find_element "review-date" element ;;
     now <- datetime_now E ;;
     ret (Some
       {| product_url := product_url;
          reviewer_name := strip (Dom.text reviewer);
          review_rating := _extract_rating_from_text (Dom.text rating);
          review_text := strip (Dom.text text);
          review_date := strip (Dom.text date);
          review_scraped_at := now |}))
    (fun e =>
       log WARNING "Error extracting review data: " (Some e) ;;;
       ret None).

(** The body of [for element in review_elements]. *)
Definition collect_review (E : env) (url : string) (element : node) : M unit :=
  try_except
    (review_data <- _extract_review_data E element url ;;
     match review_data with
     | Some d => append_review d
     | None => ret tt
     end)
    (fun e => log WARNING "Failed to extract review: " (Some e)).

(** The body of [for url in product_urls]. *)
Definition scrape_reviews_of (E : env) (self : EcommerceScraper)
    (max_reviews : Z) (url : string) : M unit :=
  log INFO ("Scraping reviews from: " ++ url) None ;;;
  driver_get E url ;;;
  _random_delay E self ;;;
  loaded <- try_except
              (wait_presence E "review-item" ;;; ret true)
              (fun _ =>
                 log WARNING ("No reviews found for " ++ url) None ;;;
                 ret false) ;;
  if loaded : bool then
    found <- driver_find_elements E "review-item" ;;
    let review_elements := slice_to max_reviews found in
    for_each review_elements (collect_review E url) ;;;
    _random_delay E self
  else ret tt.

Definition scrape_reviews_selenium (E : env) (self : EcommerceScraper)
    (product_urls : list string) (max_reviews : Z) : M (list review) :=
  driver <- _setup_selenium_driver E self ;;
  if negb driver then ret []
  else
    new_reviews ;;;
    try_finally
      (for_each product_urls (scrape_reviews_of E self max_reviews))
      (emit EvQuit) ;;;
    get_reviews.


End Scraper.

(* ===================================================================== *)
(** * basic_csv_loader.py: [SimplePostgreSQLLoader] *)
(* ===================================================================== *)

Module Loader.
Import PyStr.

Fixpoint join (sep : string) (l : list string) : string :=
  match l with
  | [] => EmptyString
  | [x] => x
  | x :: rest => x ++ sep ++ join sep rest
  end.

(** [Path.name]: the final component. *)
Definition path_name (p : string) : string :=
  List.last (split_on "/" p) EmptyString.

(** [Path.stem]: the name without its last suffix; a leading or a trailing
    dot does not start a suffix. *)
Definition path_stem (p : string) : string :=
  let name := path_name p in
  let parts := split_on "." name in
  match parts with
  | [_] => name
  | [EmptyString; _] => name
  | _ =>
      if is_empty (List.last parts EmptyString) then name
      else join "." (removelast parts)
  end.

(** [col.lower().replace(' ', '_').replace('-', '_')] *)
Definition clean_column (col : string) : string :=
  replace_char "-" "_" (replace_char " " "_" (lower col)).

(** [stem.lower().replace('-', '_').replace(' ', '_')] *)
Definition table_of_path (p : string) : string :=
  replace_char " " "_" (replace_char "-" "_" (lower (path_stem p))).

Definition is_na (c : cell) : bool :=
  match c with
  | NaN | NaT => true
  | _ => false
  end.

(** [df.dropna(how='all')] *)
Definition dropna_all (df : frame) : frame :=
  mkFrame (columns df) (dtypes df)
          (List.filter (fun r => negb (forallb is_na r)) (rows df)).

(** The positions at which a label occurs among the columns. *)
Fixpoint positions (col : string) (cols : list string) (i : nat) : list nat :=
  match cols with
  | [] => []
  | c :: rest =>
      if String.eqb c col then i :: positions col rest (S i)
      else positions col rest (S i)
  end.

Definition column_at (i : nat) (df : frame) : list cell :=
  map (fun r => nth i r NaN) (rows df).

Fixpoint zip_set (i : nat) (rs : list (list cell)) (cs : list cell) : list (list cell) :=
  match rs, cs with
  | r :: rs', c :: cs' => <[i := c]> r :: zip_set i rs' cs'
  | _, _ => rs
  end.

(** [df[col] = values] for the column at position [i]. *)
Definition set_column (i : nat) (values : list cell) (dt : dtype) (df : frame) : frame :=
  mkFrame (columns df) (<[i := dt]> (dtypes df)) (zip_set i (rows df) values).

Definition is_object (d : option dtype) : bool :=
  match d with
  | Some Object => true
  | _ => false
  end.

(** One turn of [for col in df.columns].  With a repeated label [df[col]]
    is a frame, which has no [dtype]: the test itself raises. *)
Definition handle_date_column (E : env) (col : string) (df : frame) : result frame :=
  if contains "date" (lower col) then
    match positions col (columns df) 0 with
    | [i] =>
        if is_object (dtypes df !! i) then
          match to_datetime E (column_at i df) with
          | Some values => Ok (set_column i values Datetime64 df)
          | None => Ok df
          end
        else Ok df
    | _ => Raise AttributeError
    end
  else Ok df.

Fixpoint handle_date_columns (E : env) (cols : list string) (df : frame) : result frame :=
  match cols with
  | [] => Ok df
  | col :: rest =>
      match handle_date_column E col df with
      | Ok df' => handle_date_columns E rest df'
      | Raise e => Raise e
      end
  end.

(** The frame that reaches [to_sql], when no step raises. *)
Definition prepare (E : env) (df : frame) : result frame :=
  let df := mkFrame (map clean_column (columns df)) (dtypes df) (rows df) in
  let df := dropna_all df in
  handle_date_columns E (columns df) df.

Definition lift {A} (r : result A) : M A := fun w => (r, w).

(** [pd.read_csv(csv_path)] *)
Definition pd_read_csv (E : env) (csv_path : string) : M frame :=
  out <- ask (fun t => read_csv E t csv_path) ;;
  emit (EvReadCsv csv_path) ;;;
  match out with
  | Some df => ret df
  | None => raise FileError
  end.

(** [df.to_sql(table_name, self.engine, if_exists='replace', index=False)] *)
Definition to_sql (E : env) (df : frame) (table_name : string) : M unit :=
  ok <- ask (fun t => db_accepts E t table_name df) ;;
  emit (EvToSql table_name (length (rows df))) ;;;
  if ok then set_table table_name df else raise DatabaseError.

Definition show_nat (n : nat) : string := str_of_int (Z.of_nat n).

(** [table_name] is [None] or a string; an empty string is falsy too.
    Log texts are given without their leading pictograph. *)
Definition load_csv_file (E : env) (csv_path : string) (table_name : option string)
  : M bool :=
  try_except
    (df <- pd_read_csv E csv_path ;;
     log INFO ("Reading " ++ path_name csv_path ++ ": "
               ++ show_nat (length (rows df)) ++ " rows, "
               ++ show_nat (length (columns df)) ++ " columns") None ;;;
     let table_name :=
       match table_name with
       | None | Some EmptyString => table_of_path csv_path
       | Some t => t
       end in
     df <- lift (prepare E df) ;;
     to_sql E df table_name ;;;
     log INFO ("Successfully loaded " ++ show_nat (length (rows df))
               ++ " rows into '" ++ table_name ++ "' table") None ;;;
     ret true)
    (fun e =>
       log ERROR ("Failed to load " ++ csv_path ++ ": ") (Some e) ;;;
       ret false).



End Loader.

(* ===================================================================== *)
(** * Observations on traces and records *)
(* ===================================================================== *)

Module Obs.

(** The URLs requested over HTTP, in order. *)
Definition requests (t : list event) : list string :=
  flat_map (fun ev => match ev with EvGet u => [u] | _ => [] end) t.


(** The pacing delays taken. *)
Definition sleeps (t : list event) : list Q :=
  flat_map (fun ev => match ev with EvSleep d => [d] | _ => [] end) t.

(** The statements read from the store. *)
Definition queries (t : list event) : list string :=
  flat_map (fun ev => match ev with EvQuery q => [q] | _ => [] end) t.

(** The tables written to the store. *)
Definition writes (t : list event) : list string :=
  flat_map (fun ev => match ev with EvToSql tb _ => [tb] | _ => [] end) t.

(** The page the browser was last sent to. *)
Definition last_navigated (t : list event) : option string :=
  fold_left (fun acc ev => match ev with EvNavigate u => Some u | _ => acc end)
            t None.

(** The outcome of a GET as [raise_for_status] leaves it: the exception
    that reaches the handler of the page, if any. *)
Definition fetch_error (out : http_outcome) : option exn :=
  match out with
  | Response status _ =>
      if (400 <=? status) && (status <? 600) then Some (HTTPError status)
      else None
  | ConnectionFailed => Some ConnectionError
  | TimedOut => Some Timeout
  end.

(** Every unit of work of a listing crawl, in iteration order. *)
Definition listing_urls (base_url : string) (categories : list string)
    (max_pages : Z) : list string :=
  flat_map (fun c => map (Scraper.listing_url base_url c) (range 1 (max_pages + 1)))
           categories.

(** The natural key of a review. *)
Definition review_key (r : review) : string * string * string :=
  (reviewer_name r, review_date r, review_text r).





End Obs.

(* ===================================================================== *)
(** * Concrete sites and worlds used as test inputs *)
(* ===================================================================== *)

Module Fixtures.

Definition blank_page : node := Elem "html" [] [].

Definition initial_world : world := mkWorld [] [] [] ∅.

(** An unchanging site seen through a working browser: the page rendered
    is the one of the URL last navigated to; there is no HTTP service and
    no file. *)
Definition static_site (site : string -> node) : env :=
  {| http := fun _ _ => ConnectionFailed;
     random := fun _ => (0%N, 1%positive);
     clock := fun _ => "2024-01-01T00:00:00";
     chrome_starts := fun _ _ => true;
     navigates := fun _ _ => true;
     rendered := fun t =>
       match Obs.last_navigated t with
       | Some u => site u
       | None => blank_page
       end;
     read_csv := fun _ _ => None;
     to_datetime := fun _ => None;
     db_accepts := fun _ _ _ => true |}.

(** A host on which the browser cannot be launched. *)
Definition no_browser : env :=
  {| http := fun _ _ => ConnectionFailed;
     random := fun _ => (0%N, 1%positive);
     clock := fun _ => "2024-01-01T00:00:00";
     chrome_starts := fun _ _ => false;
     navigates := fun _ _ => true;
     rendered := fun _ => blank_page;
     read_csv := fun _ _ => None;
     to_datetime := fun _ => None;
     db_accepts := fun _ _ _ => true |}.

Definition product_item (children : list node) : node :=
  Elem "div" [("class", "product-item")] children.

Definition one_product_page : node :=
  Elem "html" []
    [ product_item
        [ Elem "h3" [("class", "product-name")] [Text "Widget"];
          Elem "span" [("class", "price")] [Text "$1,234.56"] ] ].

(** The record read off [one_product_page] in category "a". *)
Definition widget : product :=
  {| name := "Widget";
     price := PFin 1234.56;
     rating := PFin 0;
     image_url := Some "";
     category := "a";
     scraped_at := "2024-01-01T00:00:00";
     source := "competitor_site" |}.

(** A shop whose first answer is a 500 and whose later answers are the
    page: a transient server error. *)
Definition flaky_shop : env :=
  {| http := fun t _ =>
       match Obs.requests t with
       | [] => Response 500 (Text "Internal Server Error")
       | _ :: _ => Response 200 one_product_page
       end;
     random := fun _ => (0%N, 1%positive);
     clock := fun _ => "2024-01-01T00:00:00";
     chrome_starts := fun _ _ => true;
     navigates := fun _ _ => true;
     rendered := fun _ => blank_page;
     read_csv := fun _ _ => None;
     to_datetime := fun _ => None;
     db_accepts := fun _ _ _ => true |}.

(** An unchanging shop: every URL is answered with its page. *)
Definition static_shop (site : string -> node) : env :=
  {| http := fun _ u => Response 200 (site u);
     random := fun _ => (0%N, 1%positive);
     clock := fun _ => "2024-01-01T00:00:00";
     chrome_starts := fun _ _ => false;
     navigates := fun _ _ => false;
     rendered := fun _ => blank_page;
     read_csv := fun _ _ => None;
     to_datetime := fun _ => None;
     db_accepts := fun _ _ _ => true |}.

(** The record read off a product element at time [now]. *)
Definition product_of (now category : string) (element : node) : product :=
  {| name := match Dom.find "h3" "product-name" element with
             | Some n => PyStr.strip (Dom.text n)
             | None => "Unknown"
             end;
     price := Scraper._clean_price
                (match Dom.find "span" "price" element with
                 | Some p => Dom.text p
                 | None => "0"
                 end);
     rating := match Dom.find "div" "rating" element with
               | Some r => Scraper._extract_rating r
               | None => PyFloat.float_of_int 0
               end;
     image_url := match Dom.find_tag "img" element with
                  | Some i => Dom.get "src" i
                  | None => Some ""
                  end;
     category := category;
     scraped_at := now;
     source := "competitor_site" |}.

(** The records of one page of an unchanging shop. *)
Definition page_products (site : string -> node) (base_url category : string)
    (page : Z) : list product :=
  map (product_of "2024-01-01T00:00:00" category)
      (Dom.find_all "div" "product-item"
         (site (Scraper.listing_url base_url category page))).

(** The records of every unit of work of a crawl of an unchanging shop. *)
Definition shop_products (site : string -> node) (base_url : string)
    (categories : list string) (max_pages : Z) : list product :=
  flat_map (fun c =>
              flat_map (page_products site base_url c) (range 1 (max_pages + 1)))
           categories.

(** A shop that is down. *)
Definition dead_shop : env :=
  {| http := fun _ _ => Response 500 (Text "Internal Server Error");
     random := fun _ => (0%N, 1%positive);
     clock := fun _ => "2024-01-01T00:00:00";
     chrome_starts := fun _ _ => true;
     navigates := fun _ _ => true;
     rendered := fun _ => blank_page;
     read_csv := fun _ _ => None;
     to_datetime := fun _ => None;
     db_accepts := fun _ _ _ => true |}.

Definition review_item (who stars body day : string) : node :=
  Elem "div" [("class", "review-item")]
    [ Elem "span" [("class", "reviewer-name")] [Text who];
      Elem "span" [("class", "review-rating")] [Text stars];
      Elem "p" [("class", "review-text")] [Text body];
      Elem "span" [("class", "review-date")] [Text day] ].

Definition one_review_page : node :=
  Elem "html" [] [ review_item "ann" "4.5 stars" "fine" "2024-01-01" ].

(** The record read off [one_review_page] when it is served for a URL. *)
Definition ann_review (url : string) : review :=
  {| product_url := url;
     reviewer_name := "ann";
     review_rating := PFin 4.5;
     review_text := "fine";
     review_date := "2024-01-01";
     review_scraped_at := "2024-01-01T00:00:00" |}.




(** Two files: the orders of yesterday and of today. *)
Definition orders_a : frame :=
  mkFrame ["Order Id"; "Total"] [Int64; Float64]
          [[CInt 1; CFloat (PFin 10)]; [CInt 2; CFloat (PFin 20)]].

Definition orders_b : frame :=
  mkFrame ["Order-Id"; "Note"] [Int64; Object]
          [[CInt 7; CStr "gift"]; [NaN; NaN]; [CInt 7; CStr "gift"]].

Definition csv_store : env :=
  {| http := fun _ _ => ConnectionFailed;
     random := fun _ => (0%N, 1%positive);
     clock := fun _ => "2024-01-01T00:00:00";
     chrome_starts := fun _ _ => false;
     navigates := fun _ _ => false;
     rendered := fun _ => blank_page;
     read_csv := fun _ p =>
       if String.eqb p "data/a.csv" then Some orders_a
       else if String.eqb p "data/b.csv" then Some orders_b
       else None;
     to_datetime := fun _ => None;
     db_accepts := fun _ _ _ => true |}.

(** The same files in front of a store that refuses every write. *)
Definition csv_store_down : env :=
  {| http := http csv_store;
     random := random csv_store;
     clock := clock csv_store;
     chrome_starts := chrome_starts csv_store;
     navigates := navigates csv_store;
     rendered := rendered csv_store;
     read_csv := read_csv csv_store;
     to_datetime := to_datetime csv_store;
     db_accepts := fun _ _ _ => false |}.

End Fixtures.

(* ===================================================================== *)
(** * Further code: social mentions and the load of a directory *)
(* ===================================================================== *)

(** A decoded JSON document, as [response.json()] returns it.  The fields
    of an object are the items of the dict, each key once. *)
#[warnings="-register-all"] Inductive json : Type :=
| JNull
| JBool (b : bool)
| JInt (n : Z)
| JFloat (x : pyfloat)
| JStr (s : string)
| JArr (items : list json)
| JObj (fields : list (string * json)).

Module Json.

Fixpoint lookup_key (k : string) (fields : list (string * json)) : option json :=
  match fields with
  | [] => None
  | (k', v) :: rest => if String.eqb k k' then Some v else lookup_key k rest
  end.

(** [v.get(k, default)]: only a dict has [get]. *)
Definition get_default (k : string) (default : json) (v : json) : result json :=
  match v with
  | JObj fields =>
      Ok (match lookup_key k fields with
          | Some x => x
          | None => default
          end)
  | _ => Raise AttributeError
  end.

(** [type(v).__name__] *)
Definition type_name (v : json) : string :=
  match v with
  | JNull => "NoneType"
  | JBool _ => "bool"
  | JInt _ => "int"
  | JFloat _ => "float"
  | JStr _ => "str"
  | JArr _ => "list"
  | JObj _ => "dict"
  end.

Fixpoint chars_of (s : string) : list json :=
  match s with
  | EmptyString => []
  | String c s' => JStr (String c EmptyString) :: chars_of s'
  end.

(** What [for x in v] runs through: the items of a list, the characters
    of a string, the keys of a dict.  The other values are not iterable:
    that is a [TypeError], given here by the name of the type it reports. *)
Definition iterate (v : json) : list json + string :=
  match v with
  | JArr items => inl items
  | JStr s => inl (chars_of s)
  | JObj fields => inl (map (fun kv => JStr (fst kv)) fields)
  | _ => inr (type_name v)
  end.

(** [f"{v}"]: a string is inserted as it is; [repr] prints the floats,
    the lists and the dicts. *)
Definition format (repr : json -> string) (v : json) : string :=
  match v with
  | JStr s => s
  | JNull => "None"
  | JBool true => "True"
  | JBool false => "False"
  | JInt n => PyStr.str_of_int n
  | _ => repr v
  end.

End Json.

Module Social.
Import PyStr Scraper.

Record mention : Type := mkMention {
  platform : string;
  title : json;
  content : json;
  score : json;
  comments : json;
  created_utc : json;
  subreddit : json;
  author : json;
  url : string;
  keyword : string;
  mention_scraped_at : string
}.

(** What ended the [try] block of [_scrape_reddit_mentions]: an exception
    of the kinds met so far, or the [TypeError] of a value that is not
    iterable. *)
Inductive failure : Type :=
| Caught (e : exn)
| NotIterable (type_name : string).

(** [f"https://www.reddit.com/search.json?q={keyword}&sort=new&limit=25"] *)
Definition search_url (keyword : string) : string :=
  "https://www.reddit.com/search.json?q=" ++ keyword ++ "&sort=new&limit=25".

(** [response.json()], with [decode] the reading of a body as JSON:
    [None] is a [JSONDecodeError], a [ValueError]. *)
Definition response_json (decode : node -> option json) (response : Z * node)
  : result json :=
  match decode (snd response) with
  | Some data => Ok data
  | None => Raise ValueError
  end.

(** The dict built for one post. *)
Definition build_mention (E : env) (repr : json -> string) (keyword : string)
    (post : json) : M mention :=
  post_data <- Loader.lift (Json.get_default "data" (JObj []) post) ;;
  title <- Loader.lift (Json.get_default "title" (JStr "") post_data) ;;
  content <- Loader.lift (Json.get_default "selftext" (JStr "") post_data) ;;
  score <- Loader.lift (Json.get_default "score" (JInt 0) post_data) ;;
  comments <- Loader.lift (Json.get_default "num_comments" (JInt 0) post_data) ;;
  created_utc <- Loader.lift (Json.get_default "created_utc" (JInt 0) post_data) ;;
  subreddit <- Loader.lift (Json.get_default "subreddit" (JStr "") post_data) ;;
  author <- Loader.lift (Json.get_default "author" (JStr "") post_data) ;;
  permalink <- Loader.lift (Json.get_default "permalink" (JStr "") post_data) ;;
  now <- datetime_now E ;;
  ret {| platform := "reddit";
         title := title;
         content := content;
         score := score;
         comments := comments;
         created_utc := created_utc;
         subreddit := subreddit;
         author := author;
         url := "https://reddit.com" ++ Json.format repr permalink;
         keyword := keyword;
         mention_scraped_at := now |}.

(** The loop [for post in ...: mentions.append({...})].  The list
    [mentions] outlives an exception raised by a post, so the loop hands
    back what it had appended together with the exception, if any. *)
Fixpoint collect_mentions (E : env) (repr : json -> string) (keyword : string)
    (posts : list json) (mentions : list mention)
  : M (list mention * option exn) :=
  match posts with
  | [] => ret (mentions, None)
  | post :: rest =>
      fun w =>
        match build_mention E repr keyword post w with
        | (Ok m, w') => collect_mentions E repr keyword rest (mentions ++ [m]) w'
        | (Raise e, w') => (Ok (mentions, Some e), w')
        end
  end.

(** The head of the [try] block: the request, the decoding, and the value
    the loop is to run through. *)
Definition fetch_children (E : env) (decode : node -> option json) (keyword : string)
  : M (list json + failure) :=
  try_except
    (response <- session_get E (search_url keyword) ;;
     raise_for_status response ;;;
     data <- Loader.lift (response_json decode response) ;;
     listing <- Loader.lift (Json.get_default "data" (JObj []) data) ;;
     children <- Loader.lift (Json.get_default "children" (JArr []) listing) ;;
     ret (match Json.iterate children with
          | inl posts => inl posts
          | inr type_name => inr (NotIterable type_name)
          end))
    (fun e => ret (inr (Caught e))).

(** The [except] clause: one line in the log. *)
Definition log_failure (keyword : string) (f : failure) : M unit :=
  match f with
  | Caught e =>
      log ERROR ("Failed to scrape Reddit mentions for " ++ keyword ++ ": ") (Some e)
  | NotIterable type_name =>
      log ERROR ("Failed to scrape Reddit mentions for " ++ keyword ++ ": '"
                 ++ type_name ++ "' object is not iterable") None
  end.

Definition _scrape_reddit_mentions (E : env) (decode : node -> option json)
    (repr : json -> string) (self : EcommerceScraper) (keyword : string)
  : M (list mention) :=
  fetched <- fetch_children E decode keyword ;;
  match fetched with
  | inr f => log_failure keyword f ;;; ret []
  | inl posts =>
      out <- collect_mentions E repr keyword posts [] ;;
      match snd out with
      | Some e => log_failure keyword (Caught e) ;;; ret (fst out)
      | None =>
          try_except (_random_delay E self)
                     (fun e => log_failure keyword (Caught e)) ;;;
          ret (fst out)
      end
  end.

(** [for x in xs: mentions.extend(f(x))] *)
Fixpoint gather {A B} (xs : list A) (f : A -> M (list B)) : M (list B) :=
  match xs with
  | [] => ret []
  | x :: rest =>
      found <- f x ;;
      more <- gather rest f ;;
      ret (found ++ more)%list
  end.

Definition scrape_social_mentions (E : env) (decode : node -> option json)
    (repr : json -> string) (self : EcommerceScraper)
    (keywords platforms : list string) : M (list mention) :=
  gather keywords (fun keyword =>
    gather platforms (fun platform =>
      if String.eqb platform "reddit"
      then _scrape_reddit_mentions E decode repr self keyword
      else ret [])).

(** The call with [platforms] left at its default. *)
Definition scrape_social_mentions_default (E : env) (decode : node -> option json)
    (repr : json -> string) (self : EcommerceScraper) (keywords : list string)
  : M (list mention) :=
  scrape_social_mentions E decode repr self keywords ["reddit"].

End Social.

Module LoaderAll.
Import PyStr Loader.

(** The loop [for csv_file in csv_files] with its counter. *)
Fixpoint count_loads (E : env) (csv_files : list string) (successful_loads : nat)
  : M nat :=
  match csv_files with
  | [] => ret successful_loads
  | csv_file :: rest =>
      ok <- load_csv_file E csv_file None ;;
      count_loads E rest (if ok : bool then S successful_loads else successful_loads)
  end.

(** [exists] is [data_path.exists()] and [csv_files] is
    [list(data_path.rglob("*.csv"))]; the result [None] is the bare
    [return].  Log texts are given without their leading pictograph. *)
Definition load_all_csv_files (E : env) (data_directory : string)
    (exists_ : bool) (csv_files : list string) : M (option nat) :=
  if negb exists_ then
    log ERROR ("Data directory '" ++ data_directory ++ "' not found") None ;;;
    ret None
  else
    match csv_files with
    | [] =>
        log WARNING ("No CSV files found in '" ++ data_directory ++ "'") None ;;;
        ret None
    | _ :: _ =>
        log INFO ("Found " ++ show_nat (length csv_files) ++ " CSV files") None ;;;
        successful_loads <- count_loads E csv_files 0 ;;
        log INFO ("Loaded " ++ show_nat successful_loads ++ "/"
                  ++ show_nat (length csv_files) ++ " files successfully") None ;;;
        ret (Some successful_loads)
    end.

End LoaderAll.

Module Obs2.

(** The observation that keeps [f ev] of every event [ev] of the trace. *)
Definition seen {B} (f : event -> list B) (w : world) : list B :=
  flat_map f (trace w).

Definition navigation_of (ev : event) : list string :=
  match ev with EvNavigate u => [u] | _ => [] end.

Definition quit_of (ev : event) : list unit :=
  match ev with EvQuit => [tt] | _ => [] end.

Definition read_of (ev : event) : list string :=
  match ev with EvReadCsv p => [p] | _ => [] end.

Definition sleep_of (ev : event) : list Q :=
  match ev with EvSleep d => [d] | _ => [] end.

Definition request_of (ev : event) : list string :=
  match ev with EvGet u => [u] | _ => [] end.

(** The pages the browser was sent to, in order. *)
Definition navigations (t : list event) : list string := flat_map navigation_of t.

(** How often the browser was shut down. *)
Definition quits (t : list event) : nat := length (flat_map quit_of t).

(** The files read, in order. *)
Definition reads (t : list event) : list string := flat_map read_of t.

(** How often a character occurs in a text. *)
Fixpoint count_char (c : ascii) (s : string) : nat :=
  match s with
  | EmptyString => 0
  | String c' s' => (if Ascii.eqb c' c then 1 else 0) + count_char c s'
  end.

(** The pause that [_random_delay] draws in a given world. *)
Definition pause (E : env) (self : Scraper.EcommerceScraper) (w : world) : Q :=
  (fst (Scraper.delay_range self)
   + (snd (Scraper.delay_range self) - fst (Scraper.delay_range self))
     * Scraper.unit_interval (random E (trace w)))%Q.

(** A post that [build_mention] accepts: an object whose ["data"], when
    present, is an object. *)
Definition well_formed_post (post : json) : bool :=
  match post with
  | JObj fields =>
      match Json.lookup_key "data" fields with
      | Some (JObj _) | None => true
      | Some _ => false
      end
  | _ => false
  end.

(** The fields of the ["data"] of a post; none when the key is absent. *)
Definition data_fields (post : json) : list (string * json) :=
  match post with
  | JObj fields =>
      match Json.lookup_key "data" fields with
      | Some (JObj data) => data
      | _ => []
      end
  | _ => []
  end.

Definition field_or (k : string) (default : json) (fields : list (string * json))
  : json :=
  match Json.lookup_key k fields with
  | Some v => v
  | None => default
  end.

(** The mention read off the fields of a post at time [now]. *)
Definition mention_of (repr : json -> string) (now keyword : string)
    (fields : list (string * json)) : Social.mention :=
  {| Social.platform := "reddit";
     Social.title := field_or "title" (JStr "") fields;
     Social.content := field_or "selftext" (JStr "") fields;
     Social.score := field_or "score" (JInt 0) fields;
     Social.comments := field_or "num_comments" (JInt 0) fields;
     Social.created_utc := field_or "created_utc" (JInt 0) fields;
     Social.subreddit := field_or "subreddit" (JStr "") fields;
     Social.author := field_or "author" (JStr "") fields;
     Social.url := "https://reddit.com"
                   ++ Json.format repr (field_or "permalink" (JStr "") fields);
     Social.keyword := keyword;
     Social.mention_scraped_at := now |}.

(** The requests of a social scrape, in order. *)
Definition social_urls (keywords platforms : list string) : list string :=
  flat_map (fun k =>
              flat_map (fun p => if String.eqb p "reddit" then [Social.search_url k]
                                 else [])
                       platforms)
           keywords.


(** How often a label occurs among the columns. *)
Definition occurrences (c : string) (cols : list string) : nat :=
  length (List.filter (fun x => String.eqb x c) cols).

(** The rows of a frame that are not entirely empty. *)
Definition kept_rows (df : frame) : list (list cell) :=
  List.filter (fun r => negb (forallb Loader.is_na r)) (rows df).

(** A frame after the renaming of its columns and the dropping of its
    empty rows, before any date is read. *)
Definition tidied (df : frame) : frame :=
  mkFrame (map Loader.clean_column (columns df)) (dtypes df) (kept_rows df).

End Obs2.

(* ===================================================================== *)
(** * Further test inputs *)
(* ===================================================================== *)

Module Samples.
Import Fixtures.

(** A scraper whose delay range lies below zero. *)
Definition backwards_scraper : Scraper.EcommerceScraper :=
  {| Scraper.headless := true; Scraper.delay_range := ((-2)%Q, (-1)%Q) |}.

(** A host whose browser starts but reaches no page. *)
Definition offline_browser : env :=
  {| http := fun _ _ => ConnectionFailed;
     random := fun _ => (0%N, 1%positive);
     clock := fun _ => "2024-01-01T00:00:00";
     chrome_starts := fun _ _ => true;
     navigates := fun _ _ => false;
     rendered := fun _ => blank_page;
     read_csv := fun _ _ => None;
     to_datetime := fun _ => None;
     db_accepts := fun _ _ _ => true |}.

Definition post_about_widgets : json :=
  JObj [("kind", JStr "t3");
        ("data", JObj [("title", JStr "Widgets?");
                       ("score", JInt 12);
                       ("permalink", JStr "/r/shop/1")])].

(** A post without its ["data"]. *)
Definition bare_post : json := JObj [("kind", JStr "t3")].

Definition search_listing (children : list json) : json :=
  JObj [("kind", JStr "Listing"); ("data", JObj [("children", JArr children)])].

(** The search service answers every query with the same body. *)
Definition reddit_up : env :=
  {| http := fun _ _ => Response 200 (Text "listing");
     random := fun _ => (0%N, 1%positive);
     clock := fun _ => "2024-01-01T00:00:00";
     chrome_starts := fun _ _ => false;
     navigates := fun _ _ => false;
     rendered := fun _ => blank_page;
     read_csv := fun _ _ => None;
     to_datetime := fun _ => None;
     db_accepts := fun _ _ _ => true |}.

(** The body decodes to a listing of two posts. *)
Definition two_posts (body : node) : option json :=
  Some (search_listing [post_about_widgets; bare_post]).

(** The body decodes to a listing whose second child is a text. *)
Definition broken_listing (body : node) : option json :=
  Some (search_listing [post_about_widgets; JStr "more"; bare_post]).

(** The samples format strings only, so [repr] is never asked. *)
Definition repr_unused (v : json) : string := "".

(** Two labels that are cleaned to the same name. *)
Definition orders_twice_dated : frame :=
  mkFrame ["Order Date"; "order-date"] [Object; Object]
          [[CStr "2024-01-01"; CStr "2024-01-02"]].

Definition orders_dated : frame :=
  mkFrame ["Order Id"; "Order Date"] [Int64; Object]
          [[CInt 1; CStr "yesterday"]; [NaN; NaN]].

(** What [csv_store] holds under a path. *)
Definition stored (path : string) : frame :=
  if String.eqb path "data/a.csv" then orders_a else orders_b.

(** The frame that a load of [csv_store] writes for a path. *)
Definition written (path : string) : frame :=
  Obs2.tidied (stored path).

End Samples.

(* ===================================================================== *)
(** * Properties *)
(* ===================================================================== *)

(** ** Texts of digits and dots *)

Module TextFacts.
Import PyStr PyFloat.

Lemma price_char_plain (c : ascii) :
  price_char c = true ->
  isspace c = false /\ Ascii.eqb c "-" = false /\ Ascii.eqb c "+" = false /\
  Ascii.eqb (lower_char c) "i" = false /\ Ascii.eqb (lower_char c) "n" = false.
Proof.
  destruct c as [b0 b1 b2 b3 b4 b5 b6 b7].
  destruct b0, b1, b2, b3, b4, b5, b6, b7; vm_compute; intuition congruence.
Qed.



Lemma all_chars_weaken (p q : ascii -> bool) (s : string) :
  (forall c, p c = true -> q c = true) ->
  all_chars p s = true -> all_chars q s = true.
Proof.
  intros Hpq. induction s as [|c s IH]; simpl; [reflexivity|].
  intros [Hc Hs]%andb_true_iff. rewrite (Hpq _ Hc), (IH Hs). reflexivity.
Qed.

Lemma filter_chars_all (keep : ascii -> bool) (s : string) :
  all_chars keep (filter_chars keep s) = true.
Proof.
  induction s as [|c s IH]; simpl; [reflexivity|].
  destruct (keep c) eqn:Hk; simpl; [rewrite Hk|]; exact IH.
Qed.

Lemma filter_chars_preserves (p keep : ascii -> bool) (s : string) :
  all_chars p s = true -> all_chars p (filter_chars keep s) = true.
Proof.
  induction s as [|c s IH]; simpl; [reflexivity|].
  intros [Hc Hs]%andb_true_iff.
  destruct (keep c); simpl; [rewrite Hc|]; auto.
Qed.

Lemma rstrip_no_space (s : string) :
  all_chars (fun c => negb (isspace c)) s = true -> rstrip s = s.
Proof.
  induction s as [|c s IH]; simpl; [reflexivity|].
  intros [Hc Hs]%andb_true_iff. rewrite (IH Hs).
  apply negb_true_iff in Hc. rewrite Hc. reflexivity.
Qed.

Lemma strip_no_space (s : string) :
  all_chars (fun c => negb (isspace c)) s = true -> strip s = s.
Proof.
  intros H. unfold strip.
  assert (lstrip s = s) as ->.
  { destruct s as [|c s]; simpl in *; [reflexivity|].
    apply andb_true_iff in H as [Hc _]. apply negb_true_iff in Hc.
    rewrite Hc. reflexivity. }
  apply rstrip_no_space, H.
Qed.

Lemma strip_price_chars (s : string) :
  all_chars price_char s = true -> strip s = s.
Proof.
  intros H. apply strip_no_space.
  eapply all_chars_weaken; [|exact H].
  intros c Hc. apply price_char_plain in Hc as (-> & _). reflexivity.
Qed.

Lemma decimal_value_nonneg (m : N) (e : Z) : (0 <= decimal_value m e)%Q.
Proof.
  unfold decimal_value. destruct (0 <=? e) eqn:He.
  - apply Z.leb_le in He.
    assert (0 <= 10 ^ e) as Hp by (apply Z.pow_nonneg; lia).
    unfold Qle, inject_Z. cbn [Qnum Qden]. nia.
  - unfold Qle. cbn [Qnum Qden]. lia.
Qed.

Lemma floatnumber_nonneg (s : string) (q : Q) :
  floatnumber s = Some q -> (0 <= q)%Q.
Proof.
  unfold floatnumber.
  destruct (number s) as [[[m k] rest]|]; [|discriminate].
  destruct (exponent rest) as [[e [|? ?]]|]; try discriminate.
  intros [= <-]. apply decimal_value_nonneg.
Qed.

(** A text of digits and dots is read as a finite number that is not
    negative, or rejected. *)
Lemma parse_price_chars (s : string) :
  all_chars price_char s = true ->
  parse s = None \/ exists q, parse s = Some (PFin q) /\ (0 <= q)%Q.
Proof.
  intros H. unfold parse. rewrite (strip_price_chars s H).
  destruct s as [|c r]; [left; reflexivity|].
  simpl in H. apply andb_true_iff in H as [Hc _].
  destruct (price_char_plain c Hc) as (_ & -> & -> & Hi & Hn).
  unfold unsigned_value. simpl. rewrite Hi, Hn. simpl.
  destruct (floatnumber (String c r)) as [q|] eqn:Hq; [right|left; reflexivity].
  exists q. split; [reflexivity|]. eapply floatnumber_nonneg, Hq.
Qed.

Lemma digitpart_needs_digit (s : string) (m : N) :
  all_chars (fun c => negb (isdecimal c)) s = true -> digitpart s m = None.
Proof.
  destruct s as [|c r]; simpl; [reflexivity|].
  intros [Hc _]%andb_true_iff. apply negb_true_iff in Hc. rewrite Hc. reflexivity.
Qed.

(** Without a decimal digit nothing of digits and dots is a number. *)
Lemma parse_no_digit (s : string) :
  all_chars price_char s = true ->
  all_chars (fun c => negb (isdecimal c)) s = true ->
  parse s = None.
Proof.
  intros H Hd. unfold parse. rewrite (strip_price_chars s H).
  destruct s as [|c r]; [reflexivity|].
  pose proof H as H'. simpl in H'. apply andb_true_iff in H' as [Hc _].
  destruct (price_char_plain c Hc) as (_ & -> & -> & Hi & Hn).
  unfold unsigned_value. simpl lower. simpl String.eqb. rewrite Hi, Hn. simpl.
  unfold floatnumber, number.
  rewrite (digitpart_needs_digit _ 0%N Hd).
  simpl in Hd. apply andb_true_iff in Hd as [_ Hr].
  destruct (Ascii.eqb c "."); [|reflexivity].
  rewrite (digitpart_needs_digit _ 0%N Hr). reflexivity.
Qed.

End TextFacts.

(** ** Rules for computations in [M] *)

Module RunFacts.
Import Run.

Lemma bind_ok {A B} (m : M A) (k : A -> M B) w a w' :
  m w = (Ok a, w') -> bind m k w = k a w'.
Proof. unfold bind. intros ->. reflexivity. Qed.

Lemma bind_raise {A B} (m : M A) (k : A -> M B) w e w' :
  m w = (Raise e, w') -> bind m k w = (Raise e, w').
Proof. unfold bind. intros ->. reflexivity. Qed.

Lemma total_run {A} (m : M A) : total m -> forall w, exists a w', m w = (Ok a, w').
Proof.
  intros H w. destruct (H w) as [a Ha]. exists a, (snd (m w)).
  destruct (m w); simpl in *; congruence.
Qed.

Lemma total_ret {A} (a : A) : total (ret a).
Proof. intros w. exists a. reflexivity. Qed.

Lemma total_bind {A B} (m : M A) (k : A -> M B) :
  total m -> (forall a, total (k a)) -> total (bind m k).
Proof.
  intros Hm Hk w. destruct (total_run m Hm w) as (a & w' & E).
  rewrite (bind_ok _ _ _ _ _ E). apply Hk.
Qed.

Lemma total_try_except {A} (m : M A) (h : exn -> M A) :
  (forall e, total (h e)) -> total (try_except m h).
Proof.
  intros Hh w. unfold try_except. destruct (m w) as [[a|e] w'].
  - exists a. reflexivity.
  - apply Hh.
Qed.

Lemma total_for_each {A} (xs : list A) (body : A -> M unit) :
  (forall x, total (body x)) -> total (for_each xs body).
Proof.
  intros Hb. induction xs as [|x xs IH]; simpl.
  - apply total_ret.
  - apply total_bind; [apply Hb | intros _; exact IH].
Qed.

Lemma total_emit ev : total (emit ev).
Proof. intros w. exists tt. reflexivity. Qed.

Lemma total_ask {A} (o : list event -> A) : total (ask o).
Proof. intros w. eexists. reflexivity. Qed.

Section Appends.
Context {B : Type} (obs : world -> list B).

Lemma appends_ret {A} (a : A) : appends obs [] (ret a).
Proof. intros w. simpl. symmetry. apply app_nil_r. Qed.

Lemma appends_raise {A} (e : exn) : appends obs [] (@raise A e).
Proof. intros w. simpl. symmetry. apply app_nil_r. Qed.

Lemma appends_ask {A} (o : list event -> A) : appends obs [] (ask o).
Proof. intros w. simpl. symmetry. apply app_nil_r. Qed.

(** What follows [m] adds nothing, whether or not [m] raises. *)
Lemma appends_bind_quiet {A C} (l : list B) (m : M A) (k : A -> M C) :
  appends obs l m -> (forall a, appends obs [] (k a)) -> appends obs l (bind m k).
Proof.
  intros Hm Hk w. unfold bind. specialize (Hm w).
  destruct (m w) as [[a|e] w']; simpl in *.
  - rewrite (Hk a w'), app_nil_r. exact Hm.
  - exact Hm.
Qed.

Lemma appends_bind {A C} (l1 l2 : list B) (m : M A) (k : A -> M C) :
  total m -> appends obs l1 m -> (forall a, appends obs l2 (k a)) ->
  appends obs (l1 ++ l2) (bind m k).
Proof.
  intros Ht Hm Hk w. destruct (total_run m Ht w) as (a & w' & E).
  rewrite (bind_ok _ _ _ _ _ E), (Hk a w').
  specialize (Hm w). rewrite E in Hm. simpl in Hm. rewrite Hm.
  symmetry. apply app_assoc.
Qed.

Lemma appends_try_except {A} (l : list B) (m : M A) (h : exn -> M A) :
  appends obs l m -> (forall e, appends obs [] (h e)) ->
  appends obs l (try_except m h).
Proof.
  intros Hm Hh w. unfold try_except. specialize (Hm w).
  destruct (m w) as [[a|e] w']; simpl in *; [exact Hm|].
  rewrite (Hh e w'), app_nil_r. exact Hm.
Qed.

Lemma appends_for_each {A} (f : A -> list B) (xs : list A) (body : A -> M unit) :
  (forall x, total (body x)) -> (forall x, appends obs (f x) (body x)) ->
  appends obs (flat_map f xs) (for_each xs body).
Proof.
  intros Ht Hb. induction xs as [|x xs IH]; simpl.
  - apply appends_ret.
  - apply appends_bind; [apply Ht | apply Hb | intros _; exact IH].
Qed.

Lemma appends_for_each_quiet {A} (xs : list A) (body : A -> M unit) :
  (forall x, appends obs [] (body x)) -> appends obs [] (for_each xs body).
Proof.
  intros Hb. induction xs as [|x xs IH]; simpl.
  - apply appends_ret.
  - apply appends_bind_quiet; [apply Hb | intros _; exact IH].
Qed.

End Appends.

Section Grows.
Context (mu : world -> nat).











End Grows.

(** Observations that do not look at the trace, and prefixes. *)

Section Blind.
Context {B : Type} (obs : world -> list B) (Hblind : trace_blind obs).

Lemma blind_emit ev : appends obs [] (emit ev).
Proof. intros w. unfold emit. cbn [snd]. rewrite Hblind, app_nil_r. reflexivity. Qed.

Lemma blind_log lvl msg e : appends obs [] (log lvl msg e).
Proof. apply blind_emit. Qed.

End Blind.

Section Extends.
Context {B : Type} (obs : world -> list B).





End Extends.

End RunFacts.

(** ** Computations that only act on the outside *)

Module EffectFacts.
Import Run RunFacts Scraper Obs.

Section Blind.
Context {B : Type} (obs : world -> list B) (Hblind : trace_blind obs).

Lemma blind_random_delay E self : appends obs [] (_random_delay E self).
Proof.
  unfold _random_delay, random_uniform, time_sleep.
  apply appends_bind_quiet.
  - apply appends_bind_quiet; [apply appends_ask|]. intros r.
    apply appends_bind_quiet; [apply (blind_emit obs Hblind)|].
    intros _. apply appends_ret.
  - intros d. destruct (Qle_bool 0 d);
      [apply (blind_emit obs Hblind) | apply appends_raise].
Qed.

Lemma blind_datetime_now E : appends obs [] (datetime_now E).
Proof.
  unfold datetime_now.
  apply appends_bind_quiet; [apply appends_ask|]. intros t.
  apply appends_bind_quiet; [apply (blind_emit obs Hblind)|].
  intros _. apply appends_ret.
Qed.



End Blind.

Lemma products_blind : trace_blind products.
Proof. intros w t. reflexivity. Qed.

Lemma reviews_blind : trace_blind reviews.
Proof. intros w t. reflexivity. Qed.

End EffectFacts.

(** ** The listing crawl *)

Module ListingFacts.
Import Run RunFacts Scraper Obs.










Lemma listing_page_total E self base category page :
  total (scrape_listing_page E self base category page).
Proof.
  unfold scrape_listing_page. apply total_try_except.
  intros e. apply total_emit.
Qed.

(** A failed fetch ends the page at once: one request, one log line. *)
Lemma listing_page_failure E self base category page w e :
  fetch_error (http E (trace w) (listing_url base category page)) = Some e ->
  scrape_listing_page E self base category page w =
    (Ok tt,
     mkWorld (trace w ++
                [EvGet (listing_url base category page);
                 EvLog ERROR ("Failed to scrape "
                              ++ listing_url base category page ++ ": ") (Some e)])
             (products w) (reviews w) (tables w)).
Proof.
  intros He.
  unfold scrape_listing_page, try_except, bind, session_get, bind, ask, emit, log, emit.
  cbn [trace products reviews tables].
  destruct (http E (trace w) (listing_url base category page))
    as [status content| |]; cbn in He |- *.
  - unfold raise_for_status, raise. cbn [fst].
    destruct ((400 <=? status) && (status <? 600)); [|discriminate].
    injection He as <-. cbn. rewrite <- app_assoc. reflexivity.
  - injection He as <-. rewrite <- app_assoc. reflexivity.
  - injection He as <-. rewrite <- app_assoc. reflexivity.
Qed.

Lemma flat_map_singleton {A B} (f : A -> B) (l : list A) :
  flat_map (fun x => [f x]) l = map f l.
Proof. induction l as [|x l IH]; simpl; [reflexivity|]. rewrite IH. reflexivity. Qed.

Lemma crawl_categories_total E self base categories max_pages :
  total (crawl_categories E self base categories max_pages).
Proof.
  unfold crawl_categories. apply total_for_each. intros category.
  apply total_bind; [apply total_emit|]. intros _.
  apply total_for_each. intros page. apply listing_page_total.
Qed.




End ListingFacts.

(** ** An unchanging shop *)

Module ShopFacts.
Import Run RunFacts EffectFacts ListingFacts Scraper Obs Fixtures.

(** An element always contributes one record, stamped with the time of
    its extraction. *)
Lemma collect_product_run E category element w :
  collect_product E category element w =
    (Ok tt,
     mkWorld (trace w ++ [EvNow])
             (products w ++ [product_of (clock E (trace w)) category element])
             (reviews w) (tables w)).
Proof. reflexivity. Qed.

Lemma collect_product_total E category element :
  total (collect_product E category element).
Proof. intros w. rewrite collect_product_run. exists tt. reflexivity. Qed.



Lemma collect_products_static site category (elements : list node) :
  appends products (map (product_of "2024-01-01T00:00:00" category) elements)
          (for_each elements (collect_product (static_shop site) category)).
Proof.
  rewrite <- flat_map_singleton.
  apply appends_for_each.
  - intros element. apply collect_product_total.
  - intros element w. rewrite collect_product_run. reflexivity.
Qed.

(** A page of an unchanging shop adds the records of its elements. *)
Lemma listing_page_static site self base category page :
  appends products (page_products site base category page)
          (scrape_listing_page (static_shop site) self base category page).
Proof.
  intros w. unfold scrape_listing_page, try_except, bind at 1, session_get,
    bind at 1, ask, bind at 1, emit.
  cbn [static_shop http trace products reviews tables ret].
  unfold bind at 1, raise_for_status. cbn [fst snd andb Z.leb Z.ltb Z.compare
    Pos.compare Pos.compare_cont ret].
  set (w1 := mkWorld (trace w ++ [EvGet (listing_url base category page)])
                     (products w) (reviews w) (tables w)).
  pose proof (collect_products_static site category
                (Dom.find_all "div" "product-item"
                   (site (listing_url base category page))) w1) as Hloop.
  destruct (total_run _
              (total_for_each
                 (Dom.find_all "div" "product-item"
                    (site (listing_url base category page)))
                 (collect_product (static_shop site) category)
                 (fun element => collect_product_total _ _ element)) w1)
    as ([] & w2 & E2).
  unfold bind at 1. rewrite E2 in *. cbn [snd] in Hloop.
  pose proof (blind_random_delay products products_blind (static_shop site) self w2)
    as Hdelay.
  destruct (_random_delay (static_shop site) self w2) as [[[]|e] w3];
    cbn [snd] in *; rewrite ?app_nil_r in Hdelay.
  - rewrite Hdelay, Hloop. reflexivity.
  - unfold log, emit. cbn [snd products]. rewrite Hdelay, Hloop. reflexivity.
Qed.

Lemma crawl_static site self base categories max_pages :
  appends products (shop_products site base categories max_pages)
          (crawl_categories (static_shop site) self base categories max_pages).
Proof.
  unfold shop_products, crawl_categories.
  apply appends_for_each.
  - intros category.
    apply total_bind; [apply total_emit|]. intros _.
    apply total_for_each. intros page. apply listing_page_total.
  - intros category.
    apply (appends_bind products []
             (flat_map (page_products site base category) (range 1 (max_pages + 1))));
      [apply total_emit | apply blind_log, products_blind |].
    intros _. apply appends_for_each.
    + intros page. apply listing_page_total.
    + intros page. apply listing_page_static.
Qed.

(** The crawl of an unchanging shop returns the records of its units. *)
Lemma scrape_static_shop site self base categories max_pages w :
  exists w',
    scrape_product_listings (static_shop site) self base categories max_pages w
    = (Ok (shop_products site base categories max_pages), w').
Proof.
  unfold scrape_product_listings, bind at 1, new_products.
  set (w0 := mkWorld (trace w) [] (reviews w) (tables w)).
  destruct (total_run _ (crawl_categories_total
                           (static_shop site) self base categories max_pages) w0)
    as ([] & w1 & Hrun).
  pose proof (crawl_static site self base categories max_pages w0) as H.
  unfold bind. rewrite Hrun in *. cbn [snd] in H.
  exists w1. unfold get_products. rewrite H. reflexivity.
Qed.

Lemma shop_products_app site base cs1 cs2 max_pages :
  shop_products site base (cs1 ++ cs2) max_pages
  = (shop_products site base cs1 max_pages ++ shop_products site base cs2 max_pages)%list.
Proof. unfold shop_products. apply flat_map_app. Qed.

End ShopFacts.

(** ** The review scraper *)

Module ReviewFacts.
Import Run RunFacts Scraper Obs.

Section Counting.
Variable p : review -> bool.











End Counting.








(** A launch failure is logged and answered with an empty frame. *)
Lemma launch_failure E self urls n w :
  chrome_starts E (trace w) (chrome_options self) = false ->
  scrape_reviews_selenium E self urls n w =
    (Ok [],
     mkWorld (trace w ++
                [EvLaunch (chrome_options self);
                 EvLog ERROR "Failed to setup Chrome driver: " (Some WebDriverException);
                 EvLog INFO "Please install ChromeDriver: https://chromedriver.chromium.org/" None])
             (products w) (reviews w) (tables w)).
Proof.
  intros H.
  unfold scrape_reviews_selenium, _setup_selenium_driver, webdriver_chrome,
    try_except, bind, ask, emit, log, emit.
  cbn [trace products reviews tables]. rewrite H. cbn.
  rewrite <- !app_assoc. reflexivity.
Qed.

End ReviewFacts.

(** ** An unchanging site *)

Module StaticSiteFacts.
Import Run RunFacts Scraper Obs Fixtures.

#[local] Arguments last_navigated : simpl never.

Lemma last_navigated_snoc (t : list event) (ev : event) :
  last_navigated (t ++ [ev]) =
  match ev with EvNavigate u => Some u | _ => last_navigated t end.
Proof. unfold last_navigated. rewrite fold_left_app. reflexivity. Qed.

Lemma for_each_app {A} (xs ys : list A) (body : A -> M unit) (w : world) :
  for_each (xs ++ ys) body w = (for_each xs body ;;; for_each ys body) w.
Proof.
  revert w. induction xs as [|x xs IH]; intros w; simpl.
  - reflexivity.
  - unfold bind. destruct (body x w) as [[[]|e] w1]; [|reflexivity].
    rewrite IH. reflexivity.
Qed.

(** On an unchanging site what is read off an element does not depend
    on the moment of the visit. *)
Lemma extract_review_static site element url :
  exists o, forall w, exists w',
    _extract_review_data (static_site site) element url w = (Ok o, w')
    /\ reviews w' = reviews w.
Proof.
  unfold _extract_review_data, try_except, bind, find_element.
  destruct (head (Dom.find_elements "reviewer-name" element));
    [|exists None; intros w; eexists; cbn; split; reflexivity].
  destruct (head (Dom.find_elements "review-rating" element));
    [|exists None; intros w; eexists; cbn; split; reflexivity].
  destruct (head (Dom.find_elements "review-text" element));
    [|exists None; intros w; eexists; cbn; split; reflexivity].
  destruct (head (Dom.find_elements "review-date" element));
    [|exists None; intros w; eexists; cbn; split; reflexivity].
  eexists. intros w. eexists. cbn. split; reflexivity.
Qed.

Lemma extract_loop_static site url (elements : list node) :
  exists rs, forall w, exists w',
    for_each elements (collect_review (static_site site) url) w = (Ok tt, w')
    /\ reviews w' = (reviews w ++ rs)%list.
Proof.
  induction elements as [|element elements (rs & IH)].
  - exists []. intros w. exists w. simpl. rewrite app_nil_r. auto.
  - destruct (extract_review_static site element url) as (o & Ho).
    exists (match o with Some d => d :: rs | None => rs end)%list. intros w.
    destruct (Ho w) as (w1 & E1 & R1).
    cbn [for_each]. unfold bind at 1, collect_review, try_except, bind at 1.
    rewrite E1.
    destruct o as [d|].
    + cbn [append_review].
      destruct (IH (mkWorld (trace w1) (products w1) (reviews w1 ++ [d]) (tables w1)))
        as (w2 & E2 & R2).
      exists w2. split; [exact E2|].
      rewrite R2. cbn [reviews]. rewrite R1, <- app_assoc. reflexivity.
    + cbn [ret]. destruct (IH w1) as (w2 & E2 & R2).
      exists w2. split; [exact E2|]. rewrite R2, R1. reflexivity.
Qed.

#[local] Arguments _random_delay : simpl never.
#[local] Arguments Dom.find_elements : simpl never.

(** With the defaults the pause is never negative, so the delay passes. *)
Lemma random_delay_static site w :
  exists d,
    _random_delay (static_site site) default_scraper w =
      (Ok tt, mkWorld ((trace w ++ [EvRandom]) ++ [EvSleep d])
                      (products w) (reviews w) (tables w)).
Proof. eexists. reflexivity. Qed.

Lemma visit_static site n url :
  exists rs, forall w, exists w',
    scrape_reviews_of (static_site site) default_scraper n url w = (Ok tt, w')
    /\ reviews w' = (reviews w ++ rs)%list.
Proof.
  destruct (Dom.find_elements "review-item" (site url)) as [|first others] eqn:Hfound.
  - exists []. intros w.
    unfold scrape_reviews_of, bind, log, driver_get, try_except, wait_presence,
      bind, ask, emit.
    cbn.
    match goal with
    | |- context [_random_delay _ _ ?w0] =>
        destruct (random_delay_static site w0) as (d & ->)
    end.
    cbn. rewrite !last_navigated_snoc, Hfound. cbn.
    eexists. split; [reflexivity|]. cbn. rewrite app_nil_r. reflexivity.
  - destruct (extract_loop_static site url (slice_to n (first :: others))) as (rs & Hloop).
    exists rs. intros w.
    unfold scrape_reviews_of, bind, log, driver_get, try_except, wait_presence,
      driver_find_elements, bind, ask, emit.
    cbn.
    match goal with
    | |- context [_random_delay _ _ ?w0] =>
        destruct (random_delay_static site w0) as (d & ->)
    end.
    cbn. rewrite !last_navigated_snoc, Hfound. cbn.
    rewrite !last_navigated_snoc, Hfound.
    match goal with
    | |- context [for_each _ _ ?w0] => destruct (Hloop w0) as (w1 & E1 & R1)
    end.
    rewrite E1.
    destruct (random_delay_static site w1) as (d' & ->).
    eexists. split; [reflexivity|]. cbn. exact R1.
Qed.

Lemma visits_static site n (urls : list string) :
  exists rs, forall w, exists w',
    for_each urls (scrape_reviews_of (static_site site) default_scraper n) w = (Ok tt, w')
    /\ reviews w' = (reviews w ++ rs)%list.
Proof.
  induction urls as [|url urls (rs & IH)].
  - exists []. intros w. exists w. simpl. rewrite app_nil_r. auto.
  - destruct (visit_static site n url) as (r1 & H1).
    exists (r1 ++ rs)%list. intros w.
    destruct (H1 w) as (w1 & E1 & R1). destruct (IH w1) as (w2 & E2 & R2).
    exists w2. cbn [for_each]. unfold bind. rewrite E1. split; [exact E2|].
    rewrite R2, R1, <- app_assoc. reflexivity.
Qed.

(** The frame returned on an unchanging site is what the visits add. *)
Lemma scrape_static site n urls rs :
  (forall w, exists w',
      for_each urls (scrape_reviews_of (static_site site) default_scraper n) w = (Ok tt, w')
      /\ reviews w' = (reviews w ++ rs)%list) ->
  forall w, exists w',
    scrape_reviews_selenium (static_site site) default_scraper urls n w = (Ok rs, w').
Proof.
  intros H w.
  unfold scrape_reviews_selenium, _setup_selenium_driver, webdriver_chrome,
    try_except, bind, ask, emit, new_reviews, try_finally, get_reviews.
  cbn.
  match goal with
  | |- context [for_each _ _ ?w0] => destruct (H w0) as (w1 & E1 & R1)
  end.
  rewrite E1. cbn. eexists. rewrite R1. reflexivity.
Qed.

Lemma scrape_static_app site us1 us2 n w :
  exists r1 r2 w1 w2 w12,
    scrape_reviews_selenium (static_site site) default_scraper us1 n w = (Ok r1, w1)
    /\ scrape_reviews_selenium (static_site site) default_scraper us2 n w = (Ok r2, w2)
    /\ scrape_reviews_selenium (static_site site) default_scraper (us1 ++ us2) n w
       = (Ok (r1 ++ r2)%list, w12).
Proof.
  destruct (visits_static site n us1) as (r1 & H1).
  destruct (visits_static site n us2) as (r2 & H2).
  assert (forall w, exists w',
             for_each (us1 ++ us2)
               (scrape_reviews_of (static_site site) default_scraper n) w = (Ok tt, w')
             /\ reviews w' = (reviews w ++ (r1 ++ r2))%list) as H12.
  { intros v. rewrite for_each_app. unfold bind.
    destruct (H1 v) as (v1 & E1 & R1). destruct (H2 v1) as (v2 & E2 & R2).
    rewrite E1. exists v2. split; [exact E2|]. rewrite R2, R1, <- app_assoc. reflexivity. }
  destruct (scrape_static site n us1 r1 H1 w) as (w1 & E1).
  destruct (scrape_static site n us2 r2 H2 w) as (w2 & E2).
  destruct (scrape_static site n (us1 ++ us2) (r1 ++ r2)%list H12 w) as (w12 & E12).
  exists r1, r2, w1, w2, w12. auto.
Qed.

End StaticSiteFacts.

(** ** Field extraction *)

Module ExtractionFacts.
Import Run RunFacts PyStr Scraper Obs Fixtures TextFacts.




Lemma clean_price_nonneg (s : string) : PyFloat.le PyFloat.zero (_clean_price s) = true.
Proof.
  unfold _clean_price.
  destruct (negb (is_empty (filter_chars price_char s))); [|reflexivity].
  destruct (parse_price_chars _ (filter_chars_all price_char s)) as [->|(q & -> & Hq)];
    [reflexivity|].
  simpl. apply Qle_bool_iff, Hq.
Qed.

Lemma clean_price_no_digit (s : string) :
  all_chars (fun c => negb (isdecimal c)) s = true -> _clean_price s = PFin 0.
Proof.
  intros H. unfold _clean_price.
  destruct (negb (is_empty (filter_chars price_char s))); [|reflexivity].
  rewrite parse_no_digit; [reflexivity | apply filter_chars_all |].
  apply filter_chars_preserves, H.
Qed.






End ExtractionFacts.

(** ** The loader *)

Module LoaderFacts.
Import Run RunFacts Loader Obs Fixtures.

Lemma queries_app (t1 t2 : list event) :
  queries (t1 ++ t2) = (queries t1 ++ queries t2)%list.
Proof. unfold queries. apply flat_map_app. Qed.

Lemma writes_app (t1 t2 : list event) :
  writes (t1 ++ t2) = (writes t1 ++ writes t2)%list.
Proof. unfold writes. apply flat_map_app. Qed.

(** The three ways a load can go, with the world each leaves behind. *)
Lemma load_csv_file_run E csv_path table_name w :
  let table :=
    match table_name with
    | None | Some EmptyString => table_of_path csv_path
    | Some t => t
    end in
  let reading raw :=
    EvLog INFO ("Reading " ++ path_name csv_path ++ ": "
                ++ show_nat (length (rows raw)) ++ " rows, "
                ++ show_nat (length (columns raw)) ++ " columns") None in
  let failed e := EvLog ERROR ("Failed to load " ++ csv_path ++ ": ") (Some e) in
  load_csv_file E csv_path table_name w =
    match read_csv E (trace w) csv_path with
    | None =>
        (Ok false,
         mkWorld (trace w ++ [EvReadCsv csv_path; failed FileError])
                 (products w) (reviews w) (tables w))
    | Some raw =>
        match prepare E raw with
        | Raise e =>
            (Ok false,
             mkWorld (trace w ++ [EvReadCsv csv_path; reading raw; failed e])
                     (products w) (reviews w) (tables w))
        | Ok df =>
            if db_accepts E (trace w ++ [EvReadCsv csv_path; reading raw]) table df
            then
              (Ok true,
               mkWorld (trace w ++
                          [EvReadCsv csv_path; reading raw;
                           EvToSql table (length (rows df));
                           EvLog INFO ("Successfully loaded "
                                       ++ show_nat (length (rows df))
                                       ++ " rows into '" ++ table ++ "' table") None])
                       (products w) (reviews w) (<[table := df]> (tables w)))
            else
              (Ok false,
               mkWorld (trace w ++
                          [EvReadCsv csv_path; reading raw;
                           EvToSql table (length (rows df)); failed DatabaseError])
                       (products w) (reviews w) (tables w))
        end
    end.
Proof.
  intros table reading failed. subst table reading failed.
  unfold load_csv_file, try_except, bind, pd_read_csv, to_sql, lift, set_table,
    bind, ask, log, emit, ret, raise.
  cbn [trace products reviews tables].
  destruct (read_csv E (trace w) csv_path) as [raw|];
    cbn [trace products reviews tables]; rewrite <- ?app_assoc; [|reflexivity].
  destruct (prepare E raw) as [df|e];
    cbn [trace products reviews tables app]; rewrite <- ?app_assoc; [|reflexivity].
  cbn [app].
  destruct (db_accepts E _ _ df);
    cbn [trace products reviews tables]; rewrite <- ?app_assoc; reflexivity.
Qed.

End LoaderFacts.

(* ===================================================================== *)
(** * The claims of the specification *)
(* ===================================================================== *)

Module Claims.
Import Run RunFacts PyStr Scraper Loader Obs Fixtures.
Import TextFacts EffectFacts ListingFacts ShopFacts ReviewFacts StaticSiteFacts.
Import ExtractionFacts LoaderFacts.

(** ** C1: the static fetch and retries *)

(** C1, as stated, fails.  The shop answers the first request with a 500
    and every later one with the page, and the configured retry budget is
    3; yet the crawl of the one page makes a single request, takes no
    pause and returns no record, although the next request would have been
    answered with the page. *)
Lemma transient_failure_not_retried :
  let run := scrape_product_listings flaky_shop default_scraper
               "http://shop" ["a"] 1 initial_world in
  Config.max_retries Config.SCRAPING_CONFIG = 3
  /\ fst run = Ok []
  /\ requests (trace (snd run)) = ["http://shop/category/a?page=1"]
  /\ sleeps (trace (snd run)) = []
  /\ http flaky_shop (trace (snd run)) "http://shop/category/a?page=1"
     = Response 200 one_product_page.
Proof. vm_compute. repeat split; reflexivity. Qed.

(** C1, amended: a page whose GET fails (connection error, timeout, or a
    4xx or 5xx status alike) is given up at once.  The page makes exactly
    one request, logs the failure once, takes no pause, adds no record and
    is not retried. *)
Theorem static_fetch_single_attempt E self base category page w e :
  fetch_error (http E (trace w) (listing_url base category page)) = Some e ->
  scrape_listing_page E self base category page w =
    (Ok tt,
     mkWorld (trace w ++
                [EvGet (listing_url base category page);
                 EvLog ERROR ("Failed to scrape "
                              ++ listing_url base category page ++ ": ") (Some e)])
             (products w) (reviews w) (tables w)).
Proof. apply listing_page_failure. Qed.

Lemma static_fetch_single_attempt_witness :
  fetch_error (http dead_shop (trace initial_world) (listing_url "http://shop" "a" 1))
  = Some (HTTPError 500)
  /\ scrape_listing_page dead_shop default_scraper "http://shop" "a" 1 initial_world =
       (Ok tt,
        mkWorld (trace initial_world ++
                   [EvGet (listing_url "http://shop" "a" 1);
                    EvLog ERROR ("Failed to scrape "
                                 ++ listing_url "http://shop" "a" 1 ++ ": ")
                          (Some (HTTPError 500))])
                (products initial_world) (reviews initial_world)
                (tables initial_world)).
Proof.
  split; [reflexivity|].
  apply (static_fetch_single_attempt dead_shop default_scraper "http://shop" "a" 1
           initial_world (HTTPError 500)).
  reflexivity.
Defined.

(** ** C2: failures stay within their unit of work *)



(** ** C3: full-replace loads *)

(** C3: after load(A) and then load(B) into a table, the table holds
    exactly what the load makes of B (the rows and schema of B with the
    column names normalised, the empty rows dropped and the date columns
    coerced): it does not depend on A nor on what the table held before.
    B is a readable file that passes the preparation and that the store
    accepts; the load then succeeds. *)
Theorem load_full_replace E pA tA pB t w raw B :
  t <> "" ->
  read_csv E (trace (snd (load_csv_file E pA tA w))) pB = Some raw ->
  prepare E raw = Ok B ->
  (forall tr, db_accepts E tr t B = true) ->
  exists wB,
    load_csv_file E pB (Some t) (snd (load_csv_file E pA tA w)) = (Ok true, wB)
    /\ tables wB !! t = Some B
    /\ tables wB = <[t := B]> (tables (snd (load_csv_file E pA tA w))).
Proof.
  intros Ht Hread Hprep Hdb. set (wA := snd (load_csv_file E pA tA w)) in *.
  rewrite load_csv_file_run, Hread, Hprep.
  destruct t as [|c t]; [congruence|]. rewrite Hdb.
  eexists. split; [reflexivity|]. cbn [tables]. split; [|reflexivity].
  apply lookup_insert_eq.
Qed.

Lemma load_full_replace_witness :
  exists wB,
    load_csv_file csv_store "data/b.csv" (Some "orders")
      (snd (load_csv_file csv_store "data/a.csv" (Some "orders") initial_world))
    = (Ok true, wB)
    /\ tables wB !! "orders"
       = Some (mkFrame ["order_id"; "note"] [Int64; Object]
                       [[CInt 7; CStr "gift"]; [CInt 7; CStr "gift"]])
    /\ tables wB
       = <["orders" := mkFrame ["order_id"; "note"] [Int64; Object]
                         [[CInt 7; CStr "gift"]; [CInt 7; CStr "gift"]]]>
           (tables (snd (load_csv_file csv_store "data/a.csv" (Some "orders")
                           initial_world))).
Proof.
  apply (load_full_replace csv_store "data/a.csv" (Some "orders") "data/b.csv"
           "orders" initial_world orders_b).
  - discriminate.
  - reflexivity.
  - reflexivity.
  - intros tr. reflexivity.
Defined.

(** ** C4: the range of ratings *)




(** ** C5: price cleaning *)

(** C5: price cleaning maps "$1,234.56" to 1234.56, maps every text
    without a decimal digit to 0.0, and never returns a negative number. *)
Theorem clean_price_spec :
  _clean_price "$1,234.56" = PFin 1234.56
  /\ (forall s, all_chars (fun c => negb (isdecimal c)) s = true ->
                _clean_price s = PFin 0)
  /\ (forall s, PyFloat.le PyFloat.zero (_clean_price s) = true).
Proof.
  split; [reflexivity|]. split; [exact clean_price_no_digit | exact clean_price_nonneg].
Qed.

Lemma clean_price_spec_witness :
  all_chars (fun c => negb (isdecimal c)) "N/A" = true
  /\ _clean_price "N/A" = PFin 0
  /\ PyFloat.le PyFloat.zero (_clean_price "12.5.3") = true.
Proof.
  split; [reflexivity|]. split.
  - apply (proj1 (proj2 clean_price_spec)). reflexivity.
  - apply (proj2 (proj2 clean_price_spec)).
Defined.

(** ** C6: deduplication *)

(** C6, as stated, fails: nothing is deduplicated.  Scraping the same URL
    twice returns the one review of its page twice, with the same
    (reviewer, date, text); and crawling the same listing URL and page
    twice returns its product twice. *)
Lemma same_url_twice_duplicates :
  fst (scrape_reviews_selenium (static_site (fun _ => one_review_page)) default_scraper
         ["http://shop/p/1"; "http://shop/p/1"] 50 initial_world)
  = Ok [ann_review "http://shop/p/1"; ann_review "http://shop/p/1"]
  /\ review_key (ann_review "http://shop/p/1") = ("ann", "2024-01-01", "fine")
  /\ fst (scrape_product_listings (static_shop (fun _ => one_product_page))
            default_scraper "http://shop" ["a"; "a"] 1 initial_world)
     = Ok [widget; widget]
  /\ listing_urls "http://shop" ["a"; "a"] 1
     = ["http://shop/category/a?page=1"; "http://shop/category/a?page=1"].
Proof. vm_compute. repeat split; reflexivity. Qed.

(** C6, amended: records are accumulated in visit order and none is
    dropped as a duplicate.  On an unchanging site, scraping a list of
    product URLs followed by a second list returns the review records of
    the first list followed by those of the second, and crawling a list of
    categories followed by a second list returns the listing records of
    the first followed by those of the second: what is scraped twice is
    recorded twice. *)
Theorem records_accumulate_without_dedup site shop self base cs1 cs2 max_pages
    us1 us2 n w :
  (exists r1 r2 w1 w2 w12,
     scrape_reviews_selenium (static_site site) default_scraper us1 n w = (Ok r1, w1)
     /\ scrape_reviews_selenium (static_site site) default_scraper us2 n w = (Ok r2, w2)
     /\ scrape_reviews_selenium (static_site site) default_scraper (us1 ++ us2) n w
        = (Ok (r1 ++ r2)%list, w12))
  /\ (exists p1 p2 w1 w2 w12,
        scrape_product_listings (static_shop shop) self base cs1 max_pages w
        = (Ok p1, w1)
        /\ scrape_product_listings (static_shop shop) self base cs2 max_pages w
           = (Ok p2, w2)
        /\ scrape_product_listings (static_shop shop) self base (cs1 ++ cs2) max_pages w
           = (Ok (p1 ++ p2)%list, w12)).
Proof.
  split; [apply scrape_static_app|].
  destruct (scrape_static_shop shop self base cs1 max_pages w) as (w1 & H1).
  destruct (scrape_static_shop shop self base cs2 max_pages w) as (w2 & H2).
  destruct (scrape_static_shop shop self base (cs1 ++ cs2) max_pages w) as (w12 & H12).
  rewrite shop_products_app in H12.
  eexists _, _, w1, w2, w12. eauto.
Qed.

(** ** C7: defaults of unresolved fields *)




(** ** C8: a browser that does not launch *)

(** C8, as stated, fails: the launch failure is not surfaced.  On a host
    without a browser the dynamic pass returns an empty frame as a normal
    result. *)
Lemma launch_failure_is_swallowed :
  fst (scrape_reviews_selenium no_browser default_scraper ["http://shop/p/1"] 50
         initial_world)
  = Ok [].
Proof. reflexivity. Qed.

(** C8, amended: if the browser driver fails to launch, the dynamic pass
    logs the failure and returns an empty record set as a normal result;
    it makes no HTTP request and visits no page, so no fallback to static
    fetching is attempted. *)
Theorem launch_failure_returns_empty E self urls n w :
  chrome_starts E (trace w) (chrome_options self) = false ->
  scrape_reviews_selenium E self urls n w =
    (Ok [],
     mkWorld (trace w ++
                [EvLaunch (chrome_options self);
                 EvLog ERROR "Failed to setup Chrome driver: " (Some WebDriverException);
                 EvLog INFO "Please install ChromeDriver: https://chromedriver.chromium.org/" None])
             (products w) (reviews w) (tables w)).
Proof. apply launch_failure. Qed.

Lemma launch_failure_returns_empty_witness :
  chrome_starts no_browser (trace initial_world) (chrome_options default_scraper) = false
  /\ scrape_reviews_selenium no_browser default_scraper ["http://shop/p/1"] 50
       initial_world =
     (Ok [],
      mkWorld (trace initial_world ++
                 [EvLaunch (chrome_options default_scraper);
                  EvLog ERROR "Failed to setup Chrome driver: " (Some WebDriverException);
                  EvLog INFO "Please install ChromeDriver: https://chromedriver.chromium.org/" None])
              (products initial_world) (reviews initial_world) (tables initial_world)).
Proof.
  split; [reflexivity|].
  apply (launch_failure_returns_empty no_browser default_scraper ["http://shop/p/1"] 50
           initial_world).
  reflexivity.
Defined.

(** ** C9: verification after the write *)

(** C9, as stated, fails: a load that writes a table reads nothing back,
    and a write that the store refuses is answered with [False], not with
    an error raised to the caller. *)
Lemma load_reads_nothing_back :
  fst (load_csv_file csv_store "data/a.csv" None initial_world) = Ok true
  /\ writes (trace (snd (load_csv_file csv_store "data/a.csv" None initial_world)))
     = ["a"]
  /\ queries (trace (snd (load_csv_file csv_store "data/a.csv" None initial_world)))
     = []
  /\ fst (load_csv_file csv_store_down "data/a.csv" None initial_world) = Ok false.
Proof. repeat split; reflexivity. Qed.

(** C9, amended: a load issues no read against the store, neither before
    nor after its write; it attempts the write at most once; and it never
    raises: the outcome, a failed read, preparation or write included, is
    reported by the returned boolean. *)
Theorem load_without_verification E csv_path table_name w :
  exists b w',
    load_csv_file E csv_path table_name w = (Ok b, w')
    /\ queries (trace w') = queries (trace w)
    /\ (length (writes (trace w')) <= length (writes (trace w)) + 1)%nat.
Proof.
  rewrite load_csv_file_run.
  destruct (read_csv E (trace w) csv_path) as [raw|];
    [destruct (prepare E raw) as [df|e]; [destruct (db_accepts E _ _ df)|]|];
    eexists; eexists; (split; [reflexivity|]); cbn [trace];
    rewrite queries_app, writes_app, length_app;
    cbn [queries writes flat_map app length]; rewrite app_nil_r;
    (split; [reflexivity | lia]).
Qed.

(** ** C10: the limit on reviews *)



End Claims.

(* ===================================================================== *)
(** * Further properties of the code *)
(* ===================================================================== *)

(** ** The pacing delay *)

Module DelayFacts.
Import Run RunFacts Scraper Obs Obs2 Fixtures Samples.

Lemma unit_interval_range (r : N * positive) :
  (0 <= unit_interval r)%Q /\ (unit_interval r < 1)%Q.
Proof.
  destruct r as [n d]. unfold unit_interval. cbn [fst snd].
  pose proof (Z.mod_pos_bound (Z.of_N n) (Zpos d) (Pos2Z.is_pos d)) as [Hlo Hhi].
  unfold Qle, Qlt. cbn [Qnum Qden]. split; lia.
Qed.

Lemma pause_range E self w :
  (fst (delay_range self) <= snd (delay_range self))%Q ->
  (fst (delay_range self) <= pause E self w)%Q
  /\ (pause E self w <= snd (delay_range self))%Q.
Proof.
  intros Hab. unfold pause.
  destruct (unit_interval_range (random E (trace w))) as [Hlo Hhi].
  set (u := unit_interval (random E (trace w))) in *.
  set (a := fst (delay_range self)) in *. set (b := snd (delay_range self)) in *.
  split; nra.
Qed.

Lemma random_delay_run E self w :
  _random_delay E self w =
    if Qle_bool 0 (pause E self w)
    then (Ok tt, mkWorld (trace w ++ [EvRandom; EvSleep (pause E self w)])
                         (products w) (reviews w) (tables w))
    else (Raise ValueError,
          mkWorld (trace w ++ [EvRandom]) (products w) (reviews w) (tables w)).
Proof.
  unfold _random_delay, random_uniform, time_sleep, bind, ask, emit, ret, raise.
  cbn [trace products reviews tables]. fold (pause E self w).
  destruct (Qle_bool 0 (pause E self w)); [|reflexivity].
  cbn [trace products reviews tables]. rewrite <- app_assoc. reflexivity.
Qed.

Lemma random_delay_drawn E self w :
  (0 <= fst (delay_range self))%Q ->
  (fst (delay_range self) <= snd (delay_range self))%Q ->
  _random_delay E self w =
    (Ok tt, mkWorld (trace w ++ [EvRandom; EvSleep (pause E self w)])
                    (products w) (reviews w) (tables w)).
Proof.
  intros Hpos Hab. destruct (pause_range E self w Hab) as [Hlo Hhi].
  rewrite random_delay_run.
  assert (Qle_bool 0 (pause E self w) = true) as ->
    by (apply Qle_bool_iff; eapply Qle_trans; eassumption).
  reflexivity.
Qed.

(** X1.  With a delay range [0 <= lo <= hi], the pacing delay
    [_random_delay] returns normally after exactly one random draw followed
    by one sleep; the time slept lies between [lo] and [hi], and the
    records and the tables are left as they were. *)
Theorem random_delay_within_range E self w :
  (0 <= fst (delay_range self))%Q ->
  (fst (delay_range self) <= snd (delay_range self))%Q ->
  exists d,
    _random_delay E self w =
      (Ok tt, mkWorld (trace w ++ [EvRandom; EvSleep d])
                      (products w) (reviews w) (tables w))
    /\ (fst (delay_range self) <= d)%Q /\ (d <= snd (delay_range self))%Q.
Proof.
  intros Hpos Hab. exists (pause E self w).
  split; [apply random_delay_drawn; assumption|].
  apply pause_range. exact Hab.
Qed.

Lemma random_delay_within_range_witness :
  exists d,
    _random_delay dead_shop default_scraper initial_world =
      (Ok tt, mkWorld [EvRandom; EvSleep d] [] [] ∅)
    /\ (1 <= d)%Q /\ (d <= 3)%Q.
Proof.
  apply (random_delay_within_range dead_shop default_scraper initial_world);
    vm_compute; discriminate.
Defined.

(** X2.  With a delay range [lo <= hi < 0], the pacing delay draws
    its delay and then raises [ValueError] ([time.sleep] refuses a negative
    length): nothing is slept. *)
Theorem random_delay_negative_range E self w :
  (fst (delay_range self) <= snd (delay_range self))%Q ->
  (snd (delay_range self) < 0)%Q ->
  _random_delay E self w =
    (Raise ValueError,
     mkWorld (trace w ++ [EvRandom]) (products w) (reviews w) (tables w)).
Proof.
  intros Hab Hneg. destruct (pause_range E self w Hab) as [Hlo Hhi].
  rewrite random_delay_run.
  destruct (Qle_bool 0 (pause E self w)) eqn:Hd; [|reflexivity].
  apply Qle_bool_iff in Hd. exfalso.
  apply (Qlt_irrefl 0). eapply Qle_lt_trans; [exact Hd|].
  eapply Qle_lt_trans; eassumption.
Qed.

Lemma random_delay_negative_range_witness :
  _random_delay dead_shop backwards_scraper initial_world =
    (Raise ValueError, mkWorld [EvRandom] [] [] ∅).
Proof.
  apply (random_delay_negative_range dead_shop backwards_scraper initial_world);
    vm_compute; [discriminate | reflexivity].
Defined.

End DelayFacts.

(** ** What a computation leaves in the trace *)

Module TraceFacts.
Import Run RunFacts Scraper Obs Obs2.

Section Seen.
Context {B : Type} (f : event -> list B).

Lemma seen_emit ev : appends (seen f) (f ev) (emit ev).
Proof.
  intros w. unfold seen. cbn [emit snd trace].
  rewrite flat_map_app. cbn [flat_map]. rewrite app_nil_r. reflexivity.
Qed.

Lemma seen_log lvl msg e : appends (seen f) (f (EvLog lvl msg e)) (log lvl msg e).
Proof. apply seen_emit. Qed.

Lemma seen_append_review d : appends (seen f) [] (append_review d).
Proof. intros w. unfold seen. cbn. rewrite app_nil_r. reflexivity. Qed.

Lemma seen_append_product d : appends (seen f) [] (append_product d).
Proof. intros w. unfold seen. cbn. rewrite app_nil_r. reflexivity. Qed.

Lemma seen_lift {A} (r : result A) : appends (seen f) [] (Loader.lift r).
Proof. intros w. unfold seen. cbn. rewrite app_nil_r. reflexivity. Qed.

Lemma seen_find_element cls element : appends (seen f) [] (find_element cls element).
Proof.
  unfold find_element.
  destruct (head (Dom.find_elements cls element)); [apply appends_ret | apply appends_raise].
Qed.

Section Quiet.
Hypothesis Hrandom : f EvRandom = [].
Hypothesis Hsleep : forall d, f (EvSleep d) = [].
Hypothesis Hnow : f EvNow = [].
Hypothesis Hlog : forall lvl msg e, f (EvLog lvl msg e) = [].
Hypothesis Hwait : forall cls, f (EvWait cls) = [].
Hypothesis Hfind : forall cls, f (EvFindElements cls) = [].

Lemma quiet_log lvl msg e : appends (seen f) [] (log lvl msg e).
Proof. rewrite <- (Hlog lvl msg e). apply seen_log. Qed.

Lemma quiet_random_delay E self : appends (seen f) [] (_random_delay E self).
Proof.
  unfold _random_delay, random_uniform, time_sleep.
  apply appends_bind_quiet.
  - apply appends_bind_quiet; [apply appends_ask|]. intros r.
    apply appends_bind_quiet; [rewrite <- Hrandom; apply seen_emit|].
    intros _. apply appends_ret.
  - intros d. destruct (Qle_bool 0 d);
      [rewrite <- (Hsleep d); apply seen_emit | apply appends_raise].
Qed.

Lemma quiet_datetime_now E : appends (seen f) [] (datetime_now E).
Proof.
  unfold datetime_now.
  apply appends_bind_quiet; [apply appends_ask|]. intros t.
  apply appends_bind_quiet; [rewrite <- Hnow; apply seen_emit|].
  intros _. apply appends_ret.
Qed.

Lemma quiet_wait_presence E cls : appends (seen f) [] (wait_presence E cls).
Proof.
  unfold wait_presence.
  apply appends_bind_quiet; [rewrite <- (Hwait cls); apply seen_emit|]. intros _.
  apply appends_bind_quiet; [apply appends_ask|]. intros page.
  destruct (Dom.find_elements cls page); [apply appends_raise | apply appends_ret].
Qed.

Lemma quiet_find_elements E cls : appends (seen f) [] (driver_find_elements E cls).
Proof.
  unfold driver_find_elements.
  apply appends_bind_quiet; [rewrite <- (Hfind cls); apply seen_emit|]. intros _.
  apply appends_bind_quiet; [apply appends_ask|]. intros page. apply appends_ret.
Qed.

Lemma quiet_extract_review E element url :
  appends (seen f) [] (_extract_review_data E element url).
Proof.
  unfold _extract_review_data. apply appends_try_except.
  - repeat (apply appends_bind_quiet;
            [first [apply seen_find_element | apply quiet_datetime_now]|intros ?]).
    apply appends_ret.
  - intros e. apply appends_bind_quiet; [apply quiet_log|]. intros _. apply appends_ret.
Qed.

Lemma quiet_collect_review E url element :
  appends (seen f) [] (collect_review E url element).
Proof.
  unfold collect_review. apply appends_try_except; [|intros e; apply quiet_log].
  apply appends_bind_quiet; [apply quiet_extract_review|].
  intros [d|]; [apply seen_append_review | apply appends_ret].
Qed.

Lemma quiet_collect_product E category element :
  appends (seen f) [] (collect_product E category element).
Proof.
  unfold collect_product. apply appends_try_except; [|intros e; apply quiet_log].
  apply appends_bind_quiet.
  - unfold _extract_product_data. apply appends_try_except.
    + apply appends_bind_quiet; [apply quiet_datetime_now|]. intros now. apply appends_ret.
    + intros e. apply appends_bind_quiet; [apply quiet_log|]. intros _. apply appends_ret.
  - intros [d|]; [apply seen_append_product | apply appends_ret].
Qed.

End Quiet.

Lemma appends_try_finally {A} (l1 l2 : list B) (obs : world -> list B)
    (m : M A) (fin : M unit) :
  appends obs l1 m -> appends obs l2 fin -> appends obs (l1 ++ l2) (try_finally m fin).
Proof.
  intros Hm Hf w. unfold try_finally. specialize (Hm w).
  destruct (m w) as [r w1]. specialize (Hf w1). cbn [snd] in *.
  destruct (fin w1) as [[[]|e] w2]; cbn [snd] in *;
    rewrite Hf, Hm, app_assoc; reflexivity.
Qed.

End Seen.

End TraceFacts.

(** ** A listing page that is served *)

Module PageFacts.
Import Run RunFacts Scraper Obs Obs2 Fixtures ShopFacts DelayFacts TraceFacts.

(** The loop over the elements of a page adds one record per element,
    in order, and takes no pause. *)
Lemma collect_products_run E category (elements : list node) w :
  exists w' new,
    for_each elements (collect_product E category) w = (Ok tt, w')
    /\ products w' = (products w ++ new)%list
    /\ Forall2 (fun p element => exists now, p = product_of now category element)
               new elements
    /\ sleeps (trace w') = sleeps (trace w).
Proof.
  revert w. induction elements as [|element elements IH]; intros w.
  - exists w, []. cbn. rewrite app_nil_r. auto.
  - cbn [for_each]. unfold bind. rewrite collect_product_run.
    destruct (IH (mkWorld (trace w ++ [EvNow])
                          (products w ++ [product_of (clock E (trace w)) category element])
                          (reviews w) (tables w)))
      as (w' & new & Hrun & Hnew & Hall & Hsleep).
    exists w', (product_of (clock E (trace w)) category element :: new).
    split; [exact Hrun|]. split; [|split].
    + rewrite Hnew. cbn [products]. rewrite <- app_assoc. reflexivity.
    + constructor; [eexists; reflexivity | exact Hall].
    + rewrite Hsleep. cbn [trace]. unfold sleeps. rewrite flat_map_app. cbn.
      apply app_nil_r.
Qed.

(** A page that is served runs the loop and then the pause; a pause that
    raises is logged as a failure of the page. *)
Lemma listing_page_served E self base category page w status content :
  http E (trace w) (listing_url base category page) = Response status content ->
  (400 <=? status) && (status <? 600) = false ->
  scrape_listing_page E self base category page w =
    match for_each (Dom.find_all "div" "product-item" content)
                   (collect_product E category)
                   (mkWorld (trace w ++ [EvGet (listing_url base category page)])
                            (products w) (reviews w) (tables w)) with
    | (Ok _, w2) =>
        match _random_delay E self w2 with
        | (Ok _, w3) => (Ok tt, w3)
        | (Raise e, w3) =>
            (Ok tt,
             mkWorld (trace w3 ++
                        [EvLog ERROR ("Failed to scrape "
                                      ++ listing_url base category page ++ ": ")
                               (Some e)])
                     (products w3) (reviews w3) (tables w3))
        end
    | (Raise e, w2) =>
        (Ok tt,
         mkWorld (trace w2 ++
                    [EvLog ERROR ("Failed to scrape "
                                  ++ listing_url base category page ++ ": ")
                           (Some e)])
                 (products w2) (reviews w2) (tables w2))
    end.
Proof.
  intros Hget Hstatus.
  unfold scrape_listing_page, try_except, bind at 1, session_get, bind at 1, ask,
    bind at 1, emit.
  cbn [trace products reviews tables]. rewrite Hget. cbn [ret].
  unfold bind at 1, raise_for_status. cbn [fst snd]. rewrite Hstatus. cbn [ret].
  unfold bind at 1.
  destruct (for_each _ _ _) as [[[]|e] w2]; [|reflexivity].
  destruct (_random_delay E self w2) as [[[]|e] w3]; reflexivity.
Qed.

(** X3.  When the listing page of a (category, page) unit is served
    with a status that is no error, the unit returns normally and appends
    to the records exactly one record per [div.product-item] element of
    the page, in document order: the record read off that element, with
    the category of the unit.  This holds whatever the pacing delay does. *)
Theorem listing_page_records E self base category page w status content :
  http E (trace w) (listing_url base category page) = Response status content ->
  (400 <=? status) && (status <? 600) = false ->
  exists w' new,
    scrape_listing_page E self base category page w = (Ok tt, w')
    /\ products w' = (products w ++ new)%list
    /\ Forall2 (fun p element => exists now, p = product_of now category element)
               new (Dom.find_all "div" "product-item" content).
Proof.
  intros Hget Hstatus.
  rewrite (listing_page_served E self base category page w status content Hget Hstatus).
  destruct (collect_products_run E category (Dom.find_all "div" "product-item" content)
              (mkWorld (trace w ++ [EvGet (listing_url base category page)])
                       (products w) (reviews w) (tables w)))
    as (w2 & new & -> & Hnew & Hall & _).
  cbn [products] in Hnew.
  pose proof (EffectFacts.blind_random_delay products EffectFacts.products_blind
                E self w2) as Hdelay.
  rewrite app_nil_r in Hdelay.
  destruct (_random_delay E self w2) as [[[]|e] w3]; cbn [snd] in Hdelay;
    eexists; exists new; (split; [reflexivity|]); cbn [products];
    rewrite Hdelay, Hnew; auto.
Qed.

Lemma listing_page_records_witness :
  exists w' new,
    scrape_listing_page (static_shop (fun _ => one_product_page)) default_scraper
      "http://shop" "a" 1 initial_world = (Ok tt, w')
    /\ products w' = (products initial_world ++ new)%list
    /\ Forall2 (fun p element => exists now, p = product_of now "a" element)
               new (Dom.find_all "div" "product-item" one_product_page).
Proof.
  apply (listing_page_records (static_shop (fun _ => one_product_page))
           default_scraper "http://shop" "a" 1 initial_world 200 one_product_page);
    reflexivity.
Defined.

(** X4.  With a delay range [0 <= lo <= hi], a (category, page) unit
    whose page is served sleeps exactly once, as its last effect, for a
    time between [lo] and [hi]: the delay comes after the page has been
    read, one per page and none per product. *)
Theorem listing_page_paced E self base category page w status content :
  http E (trace w) (listing_url base category page) = Response status content ->
  (400 <=? status) && (status <? 600) = false ->
  (0 <= fst (delay_range self))%Q ->
  (fst (delay_range self) <= snd (delay_range self))%Q ->
  exists w' d,
    scrape_listing_page E self base category page w = (Ok tt, w')
    /\ sleeps (trace w') = (sleeps (trace w) ++ [d])%list
    /\ last (trace w') = Some (EvSleep d)
    /\ (fst (delay_range self) <= d)%Q /\ (d <= snd (delay_range self))%Q.
Proof.
  intros Hget Hstatus Hpos Hab.
  rewrite (listing_page_served E self base category page w status content Hget Hstatus).
  destruct (collect_products_run E category (Dom.find_all "div" "product-item" content)
              (mkWorld (trace w ++ [EvGet (listing_url base category page)])
                       (products w) (reviews w) (tables w)))
    as (w2 & new & -> & _ & _ & Hsleep).
  rewrite (random_delay_drawn E self w2 Hpos Hab).
  destruct (pause_range E self w2 Hab) as [Hlo Hhi].
  set (d := pause E self w2) in *.
  eexists. exists d. split; [reflexivity|]. cbn [trace].
  split; [|split; [|auto]].
  - unfold sleeps in *. rewrite flat_map_app, Hsleep. cbn [trace].
    rewrite flat_map_app. cbn. rewrite app_nil_r. reflexivity.
  - change [EvRandom; EvSleep d] with ([EvRandom] ++ [EvSleep d])%list.
    rewrite app_assoc. apply last_snoc.
Qed.

Lemma listing_page_paced_witness :
  exists w' d,
    scrape_listing_page (static_shop (fun _ => one_product_page)) default_scraper
      "http://shop" "a" 1 initial_world = (Ok tt, w')
    /\ sleeps (trace w') = (sleeps (trace initial_world) ++ [d])%list
    /\ last (trace w') = Some (EvSleep d)
    /\ (1 <= d)%Q /\ (d <= 3)%Q.
Proof.
  apply (listing_page_paced (static_shop (fun _ => one_product_page))
           default_scraper "http://shop" "a" 1 initial_world 200 one_product_page);
    [reflexivity | reflexivity | vm_compute; discriminate | vm_compute; discriminate].
Defined.

End PageFacts.

(** ** The browser session *)

Module SessionFacts.
Import Run RunFacts Scraper Obs Obs2 Fixtures Samples DelayFacts TraceFacts.

Lemma seen_driver_get {B} (f : event -> list B) E url :
  appends (seen f) (f (EvNavigate url)) (driver_get E url).
Proof.
  unfold driver_get.
  apply (appends_bind (seen f) [] (f (EvNavigate url)));
    [apply total_ask | apply appends_ask|]. intros ok.
  apply appends_bind_quiet; [apply seen_emit|]. intros _.
  destruct ok; [apply appends_ret | apply appends_raise].
Qed.

(** A visit never shuts the browser down. *)
Lemma visit_keeps_browser E self n url :
  appends (seen quit_of) [] (scrape_reviews_of E self n url).
Proof.
  assert (forall lvl msg e, quit_of (EvLog lvl msg e) = []) as Hlog by reflexivity.
  assert (forall d, quit_of (EvSleep d) = []) as Hsleep by reflexivity.
  assert (forall cls, quit_of (EvWait cls) = []) as Hwait by reflexivity.
  assert (forall cls, quit_of (EvFindElements cls) = []) as Hfind by reflexivity.
  unfold scrape_reviews_of.
  apply appends_bind_quiet; [apply quiet_log, Hlog|]. intros _.
  apply appends_bind_quiet; [apply (seen_driver_get quit_of)|]. intros _.
  apply appends_bind_quiet; [apply quiet_random_delay; auto|]. intros _.
  apply appends_bind_quiet.
  { apply appends_try_except.
    - apply appends_bind_quiet; [apply quiet_wait_presence, Hwait|].
      intros _. apply appends_ret.
    - intros e. apply appends_bind_quiet; [apply quiet_log, Hlog|].
      intros _. apply appends_ret. }
  intros [|]; [|apply appends_ret].
  apply appends_bind_quiet; [apply quiet_find_elements, Hfind|]. intros found.
  apply appends_bind_quiet; [|intros _; apply quiet_random_delay; auto].
  apply appends_for_each_quiet. intros element. apply quiet_collect_review; auto.
Qed.

Lemma setup_driver_started E self w :
  chrome_starts E (trace w) (chrome_options self) = true ->
  _setup_selenium_driver E self w =
    (Ok true, mkWorld (trace w ++ [EvLaunch (chrome_options self)])
                      (products w) (reviews w) (tables w)).
Proof.
  intros H. unfold _setup_selenium_driver, webdriver_chrome, try_except, bind, ask, emit.
  cbn [trace]. rewrite H. reflexivity.
Qed.

(** Once the browser is up, the world the pass leaves is the one its
    guarded loop leaves. *)
Lemma session_world E self urls n w :
  chrome_starts E (trace w) (chrome_options self) = true ->
  snd (scrape_reviews_selenium E self urls n w) =
  snd (try_finally (for_each urls (scrape_reviews_of E self n)) (emit EvQuit)
         (mkWorld (trace w ++ [EvLaunch (chrome_options self)]) (products w) []
                  (tables w))).
Proof.
  intros Hstart. unfold scrape_reviews_selenium, bind at 1.
  rewrite (setup_driver_started E self w Hstart). cbn [negb].
  unfold bind, new_reviews. cbn [trace products reviews tables].
  destruct (try_finally _ _ _) as [[[]|e] w3]; reflexivity.
Qed.

(** X5.  Once the browser has started, a review pass shuts it down
    exactly once, and the shutdown is the last effect of the pass, whether
    the pass returns or raises ([driver.quit()] in the [finally]). *)
Theorem browser_always_quit E self urls n w :
  chrome_starts E (trace w) (chrome_options self) = true ->
  quits (trace (snd (scrape_reviews_selenium E self urls n w))) = (quits (trace w) + 1)%nat
  /\ last (trace (snd (scrape_reviews_selenium E self urls n w))) = Some EvQuit.
Proof.
  intros Hstart. rewrite (session_world E self urls n w Hstart).
  set (w1 := mkWorld (trace w ++ [EvLaunch (chrome_options self)]) (products w) []
                     (tables w)).
  split.
  - pose proof (appends_try_finally [] [tt] (seen quit_of)
                  (for_each urls (scrape_reviews_of E self n)) (emit EvQuit)
                  (appends_for_each_quiet (seen quit_of) urls _
                     (fun url => visit_keeps_browser E self n url))
                  (seen_emit quit_of EvQuit) w1) as Hquit.
    unfold quits. unfold seen in Hquit. rewrite Hquit. subst w1. cbn [trace].
    rewrite flat_map_app, !length_app. cbn. lia.
  - unfold try_finally.
    destruct (for_each urls (scrape_reviews_of E self n) w1) as [r w2].
    cbn. apply last_snoc.
Qed.

Lemma browser_always_quit_witness :
  quits (trace (snd (scrape_reviews_selenium (static_site (fun _ => one_review_page))
                       default_scraper ["http://shop/p1"] 50 initial_world)))
  = (quits (trace initial_world) + 1)%nat
  /\ last (trace (snd (scrape_reviews_selenium (static_site (fun _ => one_review_page))
                         default_scraper ["http://shop/p1"] 50 initial_world)))
     = Some EvQuit.
Proof.
  apply (browser_always_quit (static_site (fun _ => one_review_page)) default_scraper
           ["http://shop/p1"] 50 initial_world).
  reflexivity.
Defined.

Lemma for_each_raises {A} (u : A) (xs : list A) (body : A -> M unit) :
  In u xs ->
  (forall w, exists e w', body u w = (Raise e, w')) ->
  forall w, exists e w', for_each xs body w = (Raise e, w').
Proof.
  intros Hin Hu. induction xs as [|x xs IH]; [destruct Hin|]. intros w.
  cbn [for_each]. unfold bind.
  destruct Hin as [->|Hin].
  - destruct (Hu w) as (e & w' & ->). eauto.
  - destruct (body x w) as [[[]|e] w1]; [apply IH, Hin | eauto].
Qed.

(** X6.  A review pass does not isolate a failing navigation: if
    the browser starts and one of the product URLs can never be navigated
    to, the whole pass raises, whatever the other URLs are (the loop over
    the URLs has a [finally] and no [except]). *)
Theorem navigation_failure_aborts E self urls n w u :
  chrome_starts E (trace w) (chrome_options self) = true ->
  In u urls ->
  (forall t, navigates E t u = false) ->
  exists e, fst (scrape_reviews_selenium E self urls n w) = Raise e.
Proof.
  intros Hstart Hin Hnav. unfold scrape_reviews_selenium, bind at 1.
  rewrite (setup_driver_started E self w Hstart). cbn [negb].
  unfold bind at 1, new_reviews. cbn [trace products reviews tables].
  set (w1 := mkWorld _ _ _ _).
  destruct (for_each_raises u urls (scrape_reviews_of E self n) Hin) with (w := w1)
    as (e & w2 & Hloop).
  { intros v. unfold scrape_reviews_of, bind, log, driver_get, bind, ask, emit.
    cbn [trace]. rewrite Hnav. eauto. }
  exists e. unfold bind, try_finally. rewrite Hloop. reflexivity.
Qed.

Lemma navigation_failure_aborts_witness :
  exists e,
    fst (scrape_reviews_selenium offline_browser default_scraper
           ["http://shop/p1"; "http://shop/p2"] 50 initial_world) = Raise e.
Proof.
  apply (navigation_failure_aborts offline_browser default_scraper
           ["http://shop/p1"; "http://shop/p2"] 50 initial_world "http://shop/p2").
  - reflexivity.
  - right. left. reflexivity.
  - reflexivity.
Defined.

#[local] Arguments _random_delay : simpl never.
#[local] Arguments Dom.find_elements : simpl never.

Lemma navigations_snoc (t : list event) (ev : event) :
  navigations (t ++ [ev]) = (navigations t ++ navigation_of ev)%list.
Proof. unfold navigations. rewrite flat_map_app. cbn. rewrite app_nil_r. reflexivity. Qed.

(** A page on which no review shows up is left after the wait. *)
Lemma visit_without_reviews E self n url w :
  (forall t, navigates E t url = true) ->
  (forall t, Dom.find_elements "review-item" (rendered E t) = []) ->
  (0 <= fst (delay_range self))%Q ->
  (fst (delay_range self) <= snd (delay_range self))%Q ->
  exists w',
    scrape_reviews_of E self n url w = (Ok tt, w')
    /\ reviews w' = reviews w
    /\ navigations (trace w') = (navigations (trace w) ++ [url])%list
    /\ last (trace w') = Some (EvLog WARNING ("No reviews found for " ++ url) None).
Proof.
  intros Hnav Hnone Hpos Hab.
  unfold scrape_reviews_of, bind at 1, log, emit. cbn [trace products reviews tables].
  unfold bind at 1, driver_get, bind at 1, ask, bind at 1, emit.
  cbn [trace products reviews tables]. rewrite Hnav. cbn [ret].
  unfold bind at 1.
  match goal with
  | |- context [_random_delay E self ?v] =>
      rewrite (random_delay_drawn E self v Hpos Hab)
  end.
  unfold bind at 1, try_except, bind at 1, wait_presence, bind at 1, emit.
  cbn [trace products reviews tables]. unfold bind at 1, ask.
  cbn [trace products reviews tables]. rewrite Hnone. cbn [raise].
  unfold bind, emit, ret. cbn [trace products reviews tables].
  eexists. split; [reflexivity|]. cbn [trace reviews].
  split; [reflexivity|]. split; [|apply last_snoc].
  rewrite !navigations_snoc. cbn [navigation_of].
  rewrite <- !app_assoc. cbn [app]. unfold navigations.
  rewrite flat_map_app. cbn. rewrite !app_nil_r. reflexivity.
Qed.

(** X7.  When every navigation succeeds and no page ever shows a
    [review-item] element, a review pass with a delay range [0 <= lo <= hi]
    returns the empty record list, having navigated to every product URL
    once, in the order given. *)
Theorem pass_without_reviews E self urls n w :
  chrome_starts E (trace w) (chrome_options self) = true ->
  (forall t u, navigates E t u = true) ->
  (forall t, Dom.find_elements "review-item" (rendered E t) = []) ->
  (0 <= fst (delay_range self))%Q ->
  (fst (delay_range self) <= snd (delay_range self))%Q ->
  exists w',
    scrape_reviews_selenium E self urls n w = (Ok [], w')
    /\ navigations (trace w') = (navigations (trace w) ++ urls)%list.
Proof.
  intros Hstart Hnav Hnone Hpos Hab.
  assert (forall v, exists v',
             for_each urls (scrape_reviews_of E self n) v = (Ok tt, v')
             /\ reviews v' = reviews v
             /\ navigations (trace v') = (navigations (trace v) ++ urls)%list) as Hloop.
  { induction urls as [|url urls IH]; intros v.
    - exists v. cbn. rewrite app_nil_r. auto.
    - destruct (visit_without_reviews E self n url v (fun t => Hnav t url) Hnone Hpos Hab)
        as (v1 & E1 & R1 & N1 & _).
      destruct (IH v1) as (v2 & E2 & R2 & N2).
      exists v2. cbn [for_each]. unfold bind. rewrite E1.
      split; [exact E2|]. split; [congruence|].
      rewrite N2, N1, <- app_assoc. reflexivity. }
  unfold scrape_reviews_selenium, bind at 1.
  rewrite (setup_driver_started E self w Hstart). cbn [negb].
  unfold bind, new_reviews. cbn [trace products reviews tables].
  match goal with
  | |- context [try_finally _ _ ?v] => destruct (Hloop v) as (v' & Hrun & Hrev & Hnavs)
  end.
  unfold try_finally, emit, get_reviews. rewrite Hrun.
  cbn [trace products reviews tables].
  eexists. split.
  - rewrite Hrev. reflexivity.
  - cbn [trace reviews] in *. rewrite navigations_snoc, Hnavs, navigations_snoc.
    cbn [navigation_of]. rewrite !app_nil_r. reflexivity.
Qed.

Lemma pass_without_reviews_witness :
  exists w',
    scrape_reviews_selenium dead_shop default_scraper
      ["http://shop/p1"; "http://shop/p2"] 50 initial_world = (Ok [], w')
    /\ navigations (trace w') =
       (navigations (trace initial_world) ++ ["http://shop/p1"; "http://shop/p2"])%list.
Proof.
  apply (pass_without_reviews dead_shop default_scraper
           ["http://shop/p1"; "http://shop/p2"] 50 initial_world);
    [reflexivity | reflexivity | reflexivity
     | vm_compute; discriminate | vm_compute; discriminate].
Defined.

End SessionFacts.

(** ** Prices and ratings as texts *)

Module NumberFacts.
Import PyStr PyFloat Scraper Obs2 TextFacts.

Lemma filter_chars_app (keep : ascii -> bool) (s1 s2 : string) :
  filter_chars keep (s1 ++ s2) = filter_chars keep s1 ++ filter_chars keep s2.
Proof.
  induction s1 as [|c s1 IH]; [reflexivity|].
  change (String c s1 ++ s2) with (String c (s1 ++ s2)).
  cbn [filter_chars]. destruct (keep c); rewrite IH; reflexivity.
Qed.

(** X8.  Price cleaning ignores every character that is neither a
    digit nor a dot, wherever it stands: removing such a character from the
    price text leaves the price unchanged (thousands separators, currency
    signs, spaces and a minus sign alike). *)
Theorem clean_price_ignores_decoration (c : ascii) (s1 s2 : string) :
  price_char c = false ->
  _clean_price (s1 ++ String c s2) = _clean_price (s1 ++ s2).
Proof.
  intros Hc. unfold _clean_price.
  rewrite !filter_chars_app. cbn [filter_chars]. rewrite Hc. reflexivity.
Qed.

Lemma clean_price_ignores_decoration_witness :
  _clean_price ("EUR 1" ++ String "," "250.00") = _clean_price ("EUR 1" ++ "250.00").
Proof.
  apply (clean_price_ignores_decoration "," "EUR 1" "250.00"). reflexivity.
Defined.

Lemma count_char_app (c : ascii) (s1 s2 : string) :
  count_char c (s1 ++ s2) = (count_char c s1 + count_char c s2)%nat.
Proof.
  induction s1 as [|a s1 IH]; [reflexivity|].
  change (String a s1 ++ s2) with (String a (s1 ++ s2)).
  cbn [count_char]. rewrite IH. lia.
Qed.

Lemma dot_is_kept (s : string) :
  count_char "." (filter_chars price_char s) = count_char "." s.
Proof.
  induction s as [|c s IH]; cbn; [reflexivity|].
  destruct (price_char c) eqn:Hc; cbn; rewrite IH; [reflexivity|].
  unfold price_char in Hc. apply orb_false_iff in Hc as [_ ->]. reflexivity.
Qed.

Lemma decimal_not_dot (c : ascii) : isdecimal c = true -> Ascii.eqb c "." = false.
Proof.
  destruct c as [b0 b1 b2 b3 b4 b5 b6 b7].
  destruct b0, b1, b2, b3, b4, b5, b6, b7; vm_compute; congruence.
Qed.

Lemma digits_tail_cons (c : ascii) (s : string) (m : N) (n : nat) :
  digits_tail (String c s) m n =
    if isdecimal c then digits_tail s (m * 10 + digit_val c)%N (S n)
    else
      match Ascii.eqb c "_", s with
      | true, String d s' =>
          if isdecimal d then digits_tail s' (m * 10 + digit_val d)%N (S n)
          else (m, n, String c s)
      | _, _ => (m, n, String c s)
      end.
Proof. reflexivity. Qed.

(** A run of digits holds no dot: what is left holds the dots of the
    whole. *)
Lemma digits_tail_dots (s : string) :
  (forall m n, count_char "." (snd (digits_tail s m n)) = count_char "." s)
  /\ (forall c m n,
        count_char "." (snd (digits_tail (String c s) m n))
        = count_char "." (String c s)).
Proof.
  induction s as [|a s [IH1 IH2]].
  - split; [reflexivity|]. intros c m n. rewrite digits_tail_cons.
    destruct (isdecimal c) eqn:Hc.
    + cbn. rewrite (decimal_not_dot c Hc). reflexivity.
    + destruct (Ascii.eqb c "_"); reflexivity.
  - split; [apply IH2|]. intros c m n. rewrite digits_tail_cons.
    destruct (isdecimal c) eqn:Hc.
    + rewrite IH2. cbn [count_char]. rewrite (decimal_not_dot c Hc). reflexivity.
    + destruct (Ascii.eqb c "_") eqn:Hu; [|reflexivity].
      destruct (isdecimal a) eqn:Ha; [|reflexivity].
      rewrite IH1. cbn [count_char].
      apply Ascii.eqb_eq in Hu. subst c.
      rewrite (decimal_not_dot a Ha). reflexivity.
Qed.

Lemma digitpart_dots (s : string) (m : N) (r : N * nat * string) :
  digitpart s m = Some r -> count_char "." (snd r) = count_char "." s.
Proof.
  unfold digitpart. destruct s as [|c s]; [discriminate|].
  destruct (isdecimal c) eqn:Hc; [|discriminate].
  intros [= <-]. rewrite (proj1 (digits_tail_dots s)). cbn [count_char].
  rewrite (decimal_not_dot c Hc). reflexivity.
Qed.

Lemma number_dots (s : string) (r : N * nat * string) :
  number s = Some r -> (count_char "." s <= count_char "." (snd r) + 1)%nat.
Proof.
  unfold number.
  destruct (digitpart s 0) as [[[m k] rest]|] eqn:Hd.
  - apply digitpart_dots in Hd. cbn [snd] in Hd. rewrite <- Hd.
    destruct rest as [|c rest]; [intros [= <-]; cbn; lia|].
    destruct (Ascii.eqb c ".") eqn:Hc; [|intros [= <-]; cbn [snd]; lia].
    cbn [count_char]. rewrite Hc.
    destruct (digitpart rest m) as [[[m' k'] rest']|] eqn:Hd'.
    + apply digitpart_dots in Hd'. cbn [snd] in Hd'.
      intros [= <-]. cbn [snd]. lia.
    + intros [= <-]. cbn [snd]. lia.
  - destruct s as [|c s]; [discriminate|].
    destruct (Ascii.eqb c ".") eqn:Hc; [|discriminate].
    intros Hd'. apply digitpart_dots in Hd'. cbn [count_char]. rewrite Hc. lia.
Qed.

Lemma exponent_dots (s : string) (e : Z) (rest : string) :
  exponent s = Some (e, rest) -> count_char "." rest = count_char "." s.
Proof.
  unfold exponent. destruct s as [|c s]; [intros [= _ <-]; reflexivity|].
  destruct (Ascii.eqb c "e" || Ascii.eqb c "E") eqn:Hc; [|intros [= _ <-]; reflexivity].
  assert (Ascii.eqb c "." = false) as Hdot.
  { apply orb_true_iff in Hc as [Hc|Hc]; apply Ascii.eqb_eq in Hc; subst c; reflexivity. }
  cbn [count_char]. rewrite Hdot. cbn [Nat.add].
  destruct s as [|d r].
  - cbn. discriminate.
  - destruct (Ascii.eqb d "-") eqn:Hm; [|destruct (Ascii.eqb d "+") eqn:Hp].
    + apply Ascii.eqb_eq in Hm. subst d.
      destruct (digitpart r 0) as [[[v k] rest']|] eqn:Hd; [|discriminate].
      apply digitpart_dots in Hd. intros [= _ <-]. exact Hd.
    + apply Ascii.eqb_eq in Hp. subst d.
      destruct (digitpart r 0) as [[[v k] rest']|] eqn:Hd; [|discriminate].
      apply digitpart_dots in Hd. intros [= _ <-]. exact Hd.
    + destruct (digitpart (String d r) 0) as [[[v k] rest']|] eqn:Hd; [|discriminate].
      apply digitpart_dots in Hd. intros [= _ <-]. exact Hd.
Qed.

(** A number holds at most one dot. *)
Lemma floatnumber_dots (s : string) (q : Q) :
  floatnumber s = Some q -> (count_char "." s <= 1)%nat.
Proof.
  unfold floatnumber.
  destruct (number s) as [[[m k] rest]|] eqn:Hn; [|discriminate].
  apply number_dots in Hn. cbn [snd] in Hn.
  destruct (exponent rest) as [[e [|c r]]|] eqn:He; try discriminate.
  apply exponent_dots in He. cbn in He. intros _. lia.
Qed.

(** X9.  A price text with two or more dots has the price 0.0: the
    dots are all kept by the cleaning and [float] refuses the result. *)
Theorem clean_price_two_dots (price_text : string) :
  (2 <= count_char "." price_text)%nat -> _clean_price price_text = PFin 0.
Proof.
  intros Hdots. unfold _clean_price.
  set (cleaned := filter_chars price_char price_text).
  assert (count_char "." cleaned = count_char "." price_text) as Hkept
    by apply dot_is_kept.
  assert (all_chars price_char cleaned = true) as Hchars by apply filter_chars_all.
  destruct (negb (is_empty cleaned)); [|reflexivity].
  assert (parse cleaned = None) as ->; [|reflexivity].
  unfold parse. rewrite (strip_price_chars cleaned Hchars).
  destruct cleaned as [|c r]; [reflexivity|].
  pose proof Hchars as Hc. cbn in Hc. apply andb_true_iff in Hc as [Hc _].
  destruct (price_char_plain c Hc) as (_ & -> & -> & Hi & Hn).
  unfold unsigned_value. cbn [lower map_chars String.eqb]. rewrite Hi, Hn. cbn [andb orb].
  destruct (floatnumber (String c r)) as [q|] eqn:Hq; [|reflexivity].
  apply floatnumber_dots in Hq. lia.
Qed.

Lemma first_number_skips (p s : string) :
  all_chars (fun c => negb (isdecimal c)) p = true ->
  first_number (p ++ s) = first_number s.
Proof.
  induction p as [|c p IH]; [reflexivity|].
  cbn [all_chars]. intros [Hc Hp]%andb_true_iff. apply negb_true_iff in Hc.
  change (String c p ++ s) with (String c (p ++ s)).
  cbn [first_number]. unfold match_number at 1. cbn [span_digits].
  rewrite Hc. apply IH, Hp.
Qed.

Lemma clean_price_two_dots_witness : _clean_price "v1.2.3" = PFin 0.
Proof. apply (clean_price_two_dots "v1.2.3"). vm_compute. lia. Defined.

(** X10.  Rating extraction from text skips whatever precedes the
    first digit: a prefix without decimal digits does not change the
    rating. *)
Theorem rating_text_skips_words (p s : string) :
  all_chars (fun c => negb (isdecimal c)) p = true ->
  _extract_rating_from_text (p ++ s) = _extract_rating_from_text s.
Proof.
  intros Hp. unfold _extract_rating_from_text.
  rewrite (first_number_skips p s Hp). reflexivity.
Qed.

Lemma rating_text_skips_words_witness :
  _extract_rating_from_text ("Rated " ++ "4.5 out of 5")
  = _extract_rating_from_text "4.5 out of 5".
Proof. apply (rating_text_skips_words "Rated " "4.5 out of 5"). reflexivity. Defined.

End NumberFacts.

(** ** Social mentions *)

Module SocialFacts.
Import Run RunFacts Scraper Social Obs Obs2 Fixtures Samples DelayFacts TraceFacts.

Lemma build_mention_well_formed E repr keyword post w :
  well_formed_post post = true ->
  build_mention E repr keyword post w =
    (Ok (mention_of repr (clock E (trace w)) keyword (data_fields post)),
     mkWorld (trace w ++ [EvNow]) (products w) (reviews w) (tables w)).
Proof.
  unfold well_formed_post, data_fields. destruct post as [| | | | | |fields]; try discriminate.
  unfold build_mention, bind at 1, Loader.lift, Json.get_default.
  destruct (Json.lookup_key "data" fields) as [[| | | | | |data]|]; try discriminate;
    intros _; reflexivity.
Qed.

Lemma build_mention_malformed E repr keyword post w :
  well_formed_post post = false ->
  build_mention E repr keyword post w = (Raise AttributeError, w).
Proof.
  unfold well_formed_post.
  destruct post as [| | | | | |fields]; try reflexivity.
  unfold build_mention, bind at 1, Loader.lift, Json.get_default.
  destruct (Json.lookup_key "data" fields) as [[| | | | | |data]|]; try discriminate;
    intros _; reflexivity.
Qed.

(** Posts that are all well formed each give their mention. *)
Lemma collect_mentions_good E repr keyword (posts : list json) mentions w :
  forallb well_formed_post posts = true ->
  exists new w',
    collect_mentions E repr keyword posts mentions w = (Ok ((mentions ++ new)%list, None), w')
    /\ Forall2 (fun m post => exists now, m = mention_of repr now keyword (data_fields post))
               new posts
    /\ (forall B (f : event -> list B), f EvNow = [] -> seen f w' = seen f w)
    /\ products w' = products w /\ reviews w' = reviews w /\ tables w' = tables w.
Proof.
  revert mentions w. induction posts as [|post posts IH]; intros mentions w Hall.
  - exists [], w. cbn. rewrite app_nil_r. auto 10.
  - cbn [forallb] in Hall. apply andb_true_iff in Hall as [Hpost Hall].
    cbn [collect_mentions]. rewrite (build_mention_well_formed _ _ _ _ _ Hpost).
    destruct (IH (mentions ++ [mention_of repr (clock E (trace w)) keyword
                                 (data_fields post)])%list
                 (mkWorld (trace w ++ [EvNow]) (products w) (reviews w) (tables w)) Hall)
      as (new & w' & Hrun & Hnew & Hseen & Hp & Hr & Ht).
    exists (mention_of repr (clock E (trace w)) keyword (data_fields post) :: new), w'.
    split; [rewrite Hrun, <- app_assoc; reflexivity|].
    split; [constructor; [eexists; reflexivity | exact Hnew]|].
    split; [|auto].
    intros B f Hnow. rewrite (Hseen B f Hnow). unfold seen. cbn [trace].
    rewrite flat_map_app. cbn. rewrite Hnow. rewrite !app_nil_r. reflexivity.
Qed.

(** The first post that is not well formed ends the loop: the mentions of
    the posts before it are kept. *)
Lemma collect_mentions_bad E repr keyword (good : list json) bad rest mentions w :
  forallb well_formed_post good = true ->
  well_formed_post bad = false ->
  exists new w',
    collect_mentions E repr keyword (good ++ bad :: rest) mentions w
    = (Ok ((mentions ++ new)%list, Some AttributeError), w')
    /\ Forall2 (fun m post => exists now, m = mention_of repr now keyword (data_fields post))
               new good
    /\ (forall B (f : event -> list B), f EvNow = [] -> seen f w' = seen f w)
    /\ products w' = products w /\ reviews w' = reviews w /\ tables w' = tables w.
Proof.
  revert mentions w. induction good as [|post good IH]; intros mentions w Hall Hbad.
  - exists [], w. cbn [app collect_mentions].
    rewrite (build_mention_malformed _ _ _ _ _ Hbad). rewrite app_nil_r. auto 10.
  - cbn [forallb] in Hall. apply andb_true_iff in Hall as [Hpost Hall].
    cbn [app collect_mentions]. rewrite (build_mention_well_formed _ _ _ _ _ Hpost).
    destruct (IH (mentions ++ [mention_of repr (clock E (trace w)) keyword
                                 (data_fields post)])%list
                 (mkWorld (trace w ++ [EvNow]) (products w) (reviews w) (tables w))
                 Hall Hbad)
      as (new & w' & Hrun & Hnew & Hseen & Hp & Hr & Ht).
    exists (mention_of repr (clock E (trace w)) keyword (data_fields post) :: new), w'.
    split; [rewrite Hrun, <- app_assoc; reflexivity|].
    split; [constructor; [eexists; reflexivity | exact Hnew]|].
    split; [|auto].
    intros B f Hnow. rewrite (Hseen B f Hnow). unfold seen. cbn [trace].
    rewrite flat_map_app. cbn. rewrite Hnow. rewrite !app_nil_r. reflexivity.
Qed.

Lemma collect_mentions_total E repr keyword posts mentions :
  total (collect_mentions E repr keyword posts mentions).
Proof.
  revert mentions. induction posts as [|post posts IH]; intros mentions w.
  - eexists. reflexivity.
  - cbn [collect_mentions].
    destruct (build_mention E repr keyword post w) as [[m|e] w'];
      [apply IH | eexists; reflexivity].
Qed.

Lemma seen_build_mention {B} (f : event -> list B) E repr keyword post :
  f EvNow = [] -> appends (seen f) [] (build_mention E repr keyword post).
Proof.
  intros Hnow. unfold build_mention.
  repeat (apply appends_bind_quiet; [apply seen_lift|intros ?]).
  apply appends_bind_quiet; [|intros now; apply appends_ret].
  unfold datetime_now.
  apply appends_bind_quiet; [apply appends_ask|]. intros t.
  apply appends_bind_quiet; [rewrite <- Hnow; apply seen_emit|].
  intros _. apply appends_ret.
Qed.

Lemma seen_collect_mentions {B} (f : event -> list B) E repr keyword posts mentions :
  f EvNow = [] -> appends (seen f) [] (collect_mentions E repr keyword posts mentions).
Proof.
  intros Hnow. revert mentions.
  induction posts as [|post posts IH]; intros mentions w.
  - cbn. rewrite app_nil_r. reflexivity.
  - cbn [collect_mentions].
    pose proof (seen_build_mention f E repr keyword post Hnow w) as Hb.
    destruct (build_mention E repr keyword post w) as [[m|e] w']; cbn [snd] in *.
    + rewrite IH, Hb, !app_nil_r. reflexivity.
    + exact Hb.
Qed.

Lemma seen_session_get {B} (f : event -> list B) E url :
  appends (seen f) (f (EvGet url)) (session_get E url).
Proof.
  unfold session_get.
  apply (appends_bind (seen f) [] (f (EvGet url)));
    [apply total_ask | apply appends_ask|]. intros out.
  apply appends_bind_quiet; [apply seen_emit|]. intros _.
  destruct out; [apply appends_ret | apply appends_raise ..].
Qed.

Lemma seen_fetch_children {B} (f : event -> list B) E decode keyword :
  appends (seen f) (f (EvGet (search_url keyword))) (fetch_children E decode keyword).
Proof.
  unfold fetch_children. apply appends_try_except; [|intros e; apply appends_ret].
  apply appends_bind_quiet; [apply seen_session_get|]. intros response.
  apply appends_bind_quiet.
  { unfold raise_for_status.
    destruct ((400 <=? fst response) && (fst response <? 600));
      [apply appends_raise | apply appends_ret]. }
  intros _. repeat (apply appends_bind_quiet; [apply seen_lift|intros ?]).
  apply appends_ret.
Qed.

Lemma fetch_children_total E decode keyword : total (fetch_children E decode keyword).
Proof.
  unfold fetch_children. apply total_try_except. intros e. apply total_ret.
Qed.

Lemma log_failure_total keyword f : total (log_failure keyword f).
Proof. destruct f; apply total_emit. Qed.

Lemma reddit_mentions_total E decode repr self keyword :
  total (_scrape_reddit_mentions E decode repr self keyword).
Proof.
  unfold _scrape_reddit_mentions.
  apply total_bind; [apply fetch_children_total|]. intros [posts|f].
  - apply total_bind; [apply collect_mentions_total|]. intros [ms [e|]]; cbn [fst snd].
    + apply total_bind; [apply log_failure_total|]. intros _. apply total_ret.
    + apply total_bind; [|intros _; apply total_ret].
      apply total_try_except. intros e. apply log_failure_total.
  - apply total_bind; [apply log_failure_total|]. intros _. apply total_ret.
Qed.

Lemma seen_log_failure {B} (f : event -> list B) keyword fl :
  (forall lvl msg e, f (EvLog lvl msg e) = []) ->
  appends (seen f) [] (log_failure keyword fl).
Proof. intros Hlog. destruct fl; apply quiet_log, Hlog. Qed.

(** One keyword, one request. *)
Lemma reddit_mentions_requests E decode repr self keyword :
  appends (seen request_of) [search_url keyword]
          (_scrape_reddit_mentions E decode repr self keyword).
Proof.
  assert (forall lvl msg e, request_of (EvLog lvl msg e) = []) as Hlog by reflexivity.
  unfold _scrape_reddit_mentions.
  apply appends_bind_quiet; [apply (seen_fetch_children request_of)|].
  intros [posts|f].
  - apply appends_bind_quiet; [apply seen_collect_mentions; reflexivity|].
    intros [ms [e|]]; cbn [fst snd].
    + apply appends_bind_quiet; [apply seen_log_failure, Hlog|].
      intros _. apply appends_ret.
    + apply appends_bind_quiet; [|intros _; apply appends_ret].
      apply appends_try_except; [|intros e; apply seen_log_failure, Hlog].
      apply quiet_random_delay; reflexivity.
  - apply appends_bind_quiet; [apply seen_log_failure, Hlog|].
    intros _. apply appends_ret.
Qed.

Lemma gather_total {A B} (xs : list A) (f : A -> M (list B)) :
  (forall x, total (f x)) -> total (gather xs f).
Proof.
  intros Hf. induction xs as [|x xs IH]; cbn [gather]; [apply total_ret|].
  apply total_bind; [apply Hf|]. intros found.
  apply total_bind; [exact IH|]. intros more. apply total_ret.
Qed.

Lemma gather_appends {A B C} (obs : world -> list C) (g : A -> list C)
    (xs : list A) (f : A -> M (list B)) :
  (forall x, total (f x)) -> (forall x, appends obs (g x) (f x)) ->
  appends obs (flat_map g xs) (gather xs f).
Proof.
  intros Ht Hf. induction xs as [|x xs IH]; cbn [gather flat_map]; [apply appends_ret|].
  apply appends_bind; [apply Ht | apply Hf|]. intros found.
  apply appends_bind_quiet; [exact IH|]. intros more. apply appends_ret.
Qed.

(** X11.  [scrape_social_mentions] never raises, and it sends exactly
    one search request per (keyword, platform) pair whose platform is
    ["reddit"], in the order of the two loops; the other platforms cause no
    request. *)
Theorem social_scrape_total E decode repr self keywords platforms w :
  exists mentions w',
    scrape_social_mentions E decode repr self keywords platforms w = (Ok mentions, w')
    /\ requests (trace w') = (requests (trace w) ++ social_urls keywords platforms)%list.
Proof.
  assert (forall keyword platform,
             total (if String.eqb platform "reddit"
                    then _scrape_reddit_mentions E decode repr self keyword
                    else ret [])) as Htotal.
  { intros keyword platform. destruct (String.eqb platform "reddit");
      [apply reddit_mentions_total | apply total_ret]. }
  assert (total (scrape_social_mentions E decode repr self keywords platforms)) as Hrun.
  { apply gather_total. intros keyword. apply gather_total. intros platform. apply Htotal. }
  destruct (total_run _ Hrun w) as (mentions & w' & Heq).
  exists mentions, w'. split; [exact Heq|].
  pose proof (gather_appends (seen request_of)
                (fun k => flat_map (fun p => if String.eqb p "reddit"
                                             then [search_url k] else []) platforms)
                keywords
                (fun keyword => gather platforms (fun platform =>
                   if String.eqb platform "reddit"
                   then _scrape_reddit_mentions E decode repr self keyword
                   else ret []))) as H.
  specialize (H (fun keyword => gather_total platforms _ (Htotal keyword))).
  assert (forall keyword,
             appends (seen request_of)
               (flat_map (fun p => if String.eqb p "reddit" then [search_url keyword]
                                   else []) platforms)
               (gather platforms (fun platform =>
                  if String.eqb platform "reddit"
                  then _scrape_reddit_mentions E decode repr self keyword
                  else ret []))) as Hinner.
  { intros keyword. apply gather_appends; [apply Htotal|]. intros platform.
    destruct (String.eqb platform "reddit");
      [apply reddit_mentions_requests | apply appends_ret]. }
  specialize (H Hinner w). unfold scrape_social_mentions in Heq. rewrite Heq in H.
  exact H.
Qed.

Lemma fetch_children_listing E decode keyword w status content data listing posts :
  http E (trace w) (search_url keyword) = Response status content ->
  (400 <=? status) && (status <? 600) = false ->
  decode content = Some data ->
  Json.get_default "data" (JObj []) data = Ok listing ->
  Json.get_default "children" (JArr []) listing = Ok (JArr posts) ->
  fetch_children E decode keyword w =
    (Ok (inl posts),
     mkWorld (trace w ++ [EvGet (search_url keyword)])
             (products w) (reviews w) (tables w)).
Proof.
  intros Hget Hstatus Hdecode Hdata Hchildren.
  unfold fetch_children, try_except, bind at 1, session_get, bind at 1, ask,
    bind at 1, emit.
  cbn [trace products reviews tables]. rewrite Hget. cbn [ret].
  unfold bind at 1, raise_for_status. cbn [fst snd]. rewrite Hstatus. cbn [ret].
  unfold bind at 1, Loader.lift, response_json. cbn [snd]. rewrite Hdecode.
  unfold bind at 1. rewrite Hdata. unfold bind at 1. rewrite Hchildren.
  reflexivity.
Qed.

(** X12.  When the search answer is served without error status and
    decodes to a listing whose children are well-formed posts,
    [_scrape_reddit_mentions] returns one mention per post, in order, each
    read off the fields of the ["data"] of its post. *)
Theorem reddit_mentions_of_listing E decode repr self keyword w
    status content data listing posts :
  http E (trace w) (search_url keyword) = Response status content ->
  (400 <=? status) && (status <? 600) = false ->
  decode content = Some data ->
  Json.get_default "data" (JObj []) data = Ok listing ->
  Json.get_default "children" (JArr []) listing = Ok (JArr posts) ->
  forallb well_formed_post posts = true ->
  exists mentions w',
    _scrape_reddit_mentions E decode repr self keyword w = (Ok mentions, w')
    /\ Forall2 (fun m post =>
                  exists now, m = mention_of repr now keyword (data_fields post))
               mentions posts.
Proof.
  intros Hget Hstatus Hdecode Hdata Hchildren Hposts.
  unfold _scrape_reddit_mentions, bind at 1.
  rewrite (fetch_children_listing E decode keyword w status content data listing posts
             Hget Hstatus Hdecode Hdata Hchildren).
  unfold bind at 1.
  match goal with
  | |- context [collect_mentions E repr keyword posts [] ?v] =>
      destruct (collect_mentions_good E repr keyword posts [] v Hposts)
        as (new & w2 & -> & Hnew & _)
  end.
  cbn [fst snd app]. unfold bind, try_except.
  destruct (_random_delay E self w2) as [[[]|e] w3].
  - eexists _, _. split; [reflexivity | exact Hnew].
  - destruct (log_failure_total keyword (Caught e) w3) as [[] Hlog].
    destruct (log_failure keyword (Caught e) w3) as [[[]|e'] w4]; [|discriminate].
    eexists _, _. split; [reflexivity | exact Hnew].
Qed.

Lemma reddit_mentions_of_listing_witness :
  exists mentions w',
    _scrape_reddit_mentions reddit_up two_posts repr_unused default_scraper "widget"
      initial_world = (Ok mentions, w')
    /\ Forall2 (fun m post =>
                  exists now, m = mention_of repr_unused now "widget" (data_fields post))
               mentions [post_about_widgets; bare_post].
Proof.
  apply (reddit_mentions_of_listing reddit_up two_posts repr_unused default_scraper
           "widget" initial_world 200 (Text "listing")
           (search_listing [post_about_widgets; bare_post])
           (JObj [("children", JArr [post_about_widgets; bare_post])]));
    reflexivity.
Defined.

(** X13.  When a child of the listing is malformed,
    [_scrape_reddit_mentions] still returns normally, with the mentions of
    the posts that precede it (those that follow are dropped); it does not
    sleep, and its last effect is the error log of the [AttributeError]. *)
Theorem reddit_mentions_before_malformed E decode repr self keyword w
    status content data listing good bad rest :
  http E (trace w) (search_url keyword) = Response status content ->
  (400 <=? status) && (status <? 600) = false ->
  decode content = Some data ->
  Json.get_default "data" (JObj []) data = Ok listing ->
  Json.get_default "children" (JArr []) listing = Ok (JArr (good ++ bad :: rest)) ->
  forallb well_formed_post good = true ->
  well_formed_post bad = false ->
  exists mentions w',
    _scrape_reddit_mentions E decode repr self keyword w = (Ok mentions, w')
    /\ Forall2 (fun m post =>
                  exists now, m = mention_of repr now keyword (data_fields post))
               mentions good
    /\ sleeps (trace w') = sleeps (trace w)
    /\ last (trace w') =
       Some (EvLog ERROR ("Failed to scrape Reddit mentions for " ++ keyword ++ ": ")
                   (Some AttributeError)).
Proof.
  intros Hget Hstatus Hdecode Hdata Hchildren Hgood Hbad.
  unfold _scrape_reddit_mentions, bind at 1.
  rewrite (fetch_children_listing E decode keyword w status content data listing
             (good ++ bad :: rest) Hget Hstatus Hdecode Hdata Hchildren).
  unfold bind at 1.
  match goal with
  | |- context [collect_mentions E repr keyword _ [] ?v] =>
      destruct (collect_mentions_bad E repr keyword good bad rest [] v Hgood Hbad)
        as (new & w2 & -> & Hnew & Hseen & _)
  end.
  cbn [fst snd app]. unfold bind, log_failure, log, emit, ret.
  eexists _, _. split; [reflexivity|]. split; [exact Hnew|].
  cbn [trace]. split; [|apply last_snoc].
  specialize (Hseen Q sleep_of eq_refl). unfold seen in Hseen. cbn [trace] in Hseen.
  unfold sleeps. change (fun ev => match ev with EvSleep d => [d] | _ => [] end)
    with sleep_of.
  rewrite flat_map_app, Hseen, flat_map_app. cbn. rewrite !app_nil_r. reflexivity.
Qed.

Lemma reddit_mentions_before_malformed_witness :
  exists mentions w',
    _scrape_reddit_mentions reddit_up broken_listing repr_unused default_scraper
      "widget" initial_world = (Ok mentions, w')
    /\ Forall2 (fun m post =>
                  exists now, m = mention_of repr_unused now "widget" (data_fields post))
               mentions [post_about_widgets]
    /\ sleeps (trace w') = sleeps (trace initial_world)
    /\ last (trace w') =
       Some (EvLog ERROR ("Failed to scrape Reddit mentions for " ++ "widget" ++ ": ")
                   (Some AttributeError)).
Proof.
  apply (reddit_mentions_before_malformed reddit_up broken_listing repr_unused
           default_scraper "widget" initial_world 200 (Text "listing")
           (search_listing [post_about_widgets; JStr "more"; bare_post])
           (JObj [("children", JArr [post_about_widgets; JStr "more"; bare_post])])
           [post_about_widgets] (JStr "more") [bare_post]);
    reflexivity.
Defined.

(** X14.  A mention built from a well-formed post is a ["reddit"]
    mention with the searched keyword; every field that the post does not
    give takes its default (the empty text, or 0 for the score, the comment
    count and the creation time), and the URL is ["https://reddit.com"]
    followed by the permalink of the post, or alone without one. *)
Theorem mention_defaults E repr keyword post w :
  well_formed_post post = true ->
  exists m,
    fst (build_mention E repr keyword post w) = Ok m
    /\ platform m = "reddit" /\ Social.keyword m = keyword
    /\ (Json.lookup_key "title" (data_fields post) = None -> title m = JStr "")
    /\ (Json.lookup_key "selftext" (data_fields post) = None -> content m = JStr "")
    /\ (Json.lookup_key "score" (data_fields post) = None -> score m = JInt 0)
    /\ (Json.lookup_key "num_comments" (data_fields post) = None -> comments m = JInt 0)
    /\ (Json.lookup_key "created_utc" (data_fields post) = None -> created_utc m = JInt 0)
    /\ (Json.lookup_key "subreddit" (data_fields post) = None -> subreddit m = JStr "")
    /\ (Json.lookup_key "author" (data_fields post) = None -> author m = JStr "")
    /\ (Json.lookup_key "permalink" (data_fields post) = None ->
        url m = "https://reddit.com")
    /\ (forall path, Json.lookup_key "permalink" (data_fields post) = Some (JStr path) ->
        url m = "https://reddit.com" ++ path).
Proof.
  intros Hpost. rewrite (build_mention_well_formed E repr keyword post w Hpost).
  eexists. split; [reflexivity|]. unfold mention_of, field_or.
  cbn [platform Social.keyword title content score comments created_utc subreddit
       author url].
  repeat split; try (intros ->; reflexivity).
  intros path ->. reflexivity.
Qed.

Lemma mention_defaults_witness :
  exists m,
    fst (build_mention reddit_up repr_unused "widget" post_about_widgets initial_world)
      = Ok m
    /\ title m = JStr "Widgets?" /\ content m = JStr "" /\ comments m = JInt 0
    /\ author m = JStr "" /\ url m = "https://reddit.com/r/shop/1".
Proof.
  destruct (mention_defaults reddit_up repr_unused "widget" post_about_widgets
              initial_world eq_refl)
    as (m & Hrun & _ & _ & _ & Hcontent & _ & Hcomments & _ & _ & Hauthor & _ & Hurl).
  exists m. split; [exact Hrun|].
  split; [vm_compute in Hrun; injection Hrun as <-; reflexivity|].
  split; [apply Hcontent; reflexivity|].
  split; [apply Hcomments; reflexivity|].
  split; [apply Hauthor; reflexivity|].
  apply (Hurl "/r/shop/1"). reflexivity.
Defined.

(** X15.  When the search request fails (connection error, timeout or
    error status), [_scrape_reddit_mentions] returns the empty list after
    that one request and one error log: no retry, no sleep. *)
Theorem reddit_fetch_failure E decode repr self keyword w e :
  fetch_error (http E (trace w) (search_url keyword)) = Some e ->
  _scrape_reddit_mentions E decode repr self keyword w =
    (Ok [],
     mkWorld (trace w ++
                [EvGet (search_url keyword);
                 EvLog ERROR ("Failed to scrape Reddit mentions for " ++ keyword ++ ": ")
                       (Some e)])
             (products w) (reviews w) (tables w)).
Proof.
  intros He.
  unfold _scrape_reddit_mentions, bind at 1, fetch_children, try_except, bind at 1,
    session_get, bind at 1, ask, bind at 1, emit.
  cbn [trace products reviews tables].
  destruct (http E (trace w) (search_url keyword)) as [status content| |];
    cbn in He |- *.
  - unfold bind at 1, raise_for_status, raise. cbn [fst].
    destruct ((400 <=? status) && (status <? 600)); [|discriminate].
    injection He as <-. cbn. rewrite <- app_assoc. reflexivity.
  - injection He as <-. rewrite <- app_assoc. reflexivity.
  - injection He as <-. rewrite <- app_assoc. reflexivity.
Qed.

Lemma reddit_fetch_failure_witness :
  _scrape_reddit_mentions dead_shop two_posts repr_unused default_scraper "widget"
    initial_world =
    (Ok [],
     mkWorld (trace initial_world ++
                [EvGet (search_url "widget");
                 EvLog ERROR ("Failed to scrape Reddit mentions for " ++ "widget" ++ ": ")
                       (Some (HTTPError 500))])
             (products initial_world) (reviews initial_world) (tables initial_world)).
Proof.
  apply (reddit_fetch_failure dead_shop two_posts repr_unused default_scraper "widget"
           initial_world (HTTPError 500)).
  reflexivity.
Defined.

End SocialFacts.

(** ** The preparation of a frame *)

Module PrepareFacts.
Import Run RunFacts PyStr Loader Obs Obs2 Fixtures Samples.






Lemma positions_occurrences (c : string) (cols : list string) (k : nat) :
  length (positions c cols k) = occurrences c cols.
Proof.
  unfold occurrences. revert k.
  induction cols as [|x cols IH]; intros k; cbn; [reflexivity|].
  destruct (String.eqb x c); cbn; rewrite IH; reflexivity.
Qed.

Lemma occurrences_NoDup (c : string) (cols : list string) :
  NoDup cols -> In c cols -> occurrences c cols = 1%nat.
Proof.
  unfold occurrences.
  induction 1 as [|x cols Hx Hnd IH]; intros Hin; [destruct Hin|].
  cbn. destruct (String.eqb x c) eqn:Hxc.
  - apply String.eqb_eq in Hxc. subst x. cbn. f_equal.
    apply length_zero_iff_nil.
    destruct (List.filter (fun x => String.eqb x c) cols) as [|y l] eqn:Hf;
      [reflexivity|].
    assert (Hy : In y (List.filter (fun x => String.eqb x c) cols))
      by (rewrite Hf; left; reflexivity).
    apply filter_In in Hy. destruct Hy as [Hy1 Hy2].
    apply String.eqb_eq in Hy2. subst y. exfalso. apply Hx.
    apply list_elem_of_In. exact Hy1.
  - apply IH. destruct Hin as [->|Hin]; [|exact Hin].
    rewrite String.eqb_refl in Hxc. discriminate.
Qed.

Lemma zip_set_length (i : nat) (rs : list (list cell)) (cs : list cell) :
  length (zip_set i rs cs) = length rs.
Proof.
  revert cs. induction rs as [|r rs IH]; intros cs; [reflexivity|].
  destruct cs as [|c cs]; cbn; [reflexivity|]. rewrite IH. reflexivity.
Qed.

(** One turn of the date loop keeps the labels and the number of rows, and
    can only fail on a repeated label. *)
Lemma handle_date_column_shape E col df :
  match handle_date_column E col df with
  | Ok out => columns out = columns df /\ length (rows out) = length (rows df)
  | Raise e =>
      e = AttributeError /\ contains "date" (lower col) = true
      /\ occurrences col (columns df) <> 1%nat
  end.
Proof.
  unfold handle_date_column.
  destruct (contains "date" (lower col)) eqn:Hd; [|split; reflexivity].
  pose proof (positions_occurrences col (columns df) 0) as Hlen.
  destruct (positions col (columns df) 0) as [|i [|j l]].
  - cbn in Hlen. split; [reflexivity|]. split; [reflexivity|]. lia.
  - destruct (is_object (dtypes df !! i)); [|split; reflexivity].
    destruct (to_datetime E (column_at i df)); [|split; reflexivity].
    cbn. split; [reflexivity|]. apply zip_set_length.
  - cbn in Hlen. split; [reflexivity|]. split; [reflexivity|]. lia.
Qed.

Lemma handle_date_columns_shape E cols df :
  match handle_date_columns E cols df with
  | Ok out => columns out = columns df /\ length (rows out) = length (rows df)
  | Raise e =>
      e = AttributeError /\
      exists col, In col cols /\ contains "date" (lower col) = true
                  /\ occurrences col (columns df) <> 1%nat
  end.
Proof.
  revert df. induction cols as [|col cols IH]; intros df; cbn; [split; reflexivity|].
  pose proof (handle_date_column_shape E col df) as H1.
  destruct (handle_date_column E col df) as [df'|e].
  - destruct H1 as [Hc Hr]. specialize (IH df').
    destruct (handle_date_columns E cols df') as [out|e].
    + destruct IH as [Hc' Hr']. split; congruence.
    + destruct IH as [-> (c & Hin & Hd & Ho)]. split; [reflexivity|].
      exists c. rewrite <- Hc. auto.
  - destruct H1 as [-> [Hd Ho]]. split; [reflexivity|].
    exists col. auto.
Qed.

Lemma handle_date_columns_raises E cols df c :
  In c cols -> contains "date" (lower c) = true ->
  occurrences c (columns df) <> 1%nat ->
  handle_date_columns E cols df = Raise AttributeError.
Proof.
  revert df. induction cols as [|col cols IH]; intros df Hin Hd Ho; [destruct Hin|].
  cbn. pose proof (handle_date_column_shape E col df) as H1.
  destruct (handle_date_column E col df) as [df'|e] eqn:Hrun.
  - destruct H1 as [Hc Hr]. destruct Hin as [->|Hin].
    + exfalso. unfold handle_date_column in Hrun. rewrite Hd in Hrun.
      pose proof (positions_occurrences c (columns df) 0) as Hlen.
      destruct (positions c (columns df) 0) as [|i [|j l]]; try discriminate.
      cbn in Hlen. lia.
    + apply IH; [exact Hin|exact Hd|]. rewrite Hc. exact Ho.
  - destruct H1 as [-> _]. reflexivity.
Qed.

(** The loop leaves the frame as it is when no turn reads a date. *)
Lemma handle_date_columns_idle E cols df :
  (forall c, In c cols ->
     contains "date" (lower c) = false \/
     (occurrences c (columns df) = 1%nat /\
      forall i, is_object (dtypes df !! i) = true ->
                to_datetime E (column_at i df) = None)) ->
  handle_date_columns E cols df = Ok df.
Proof.
  induction cols as [|col cols IH]; intros H; [reflexivity|].
  cbn. assert (H1 : handle_date_column E col df = Ok df).
  { unfold handle_date_column.
    destruct (H col (or_introl eq_refl)) as [Hd|[Ho Ht]].
    - rewrite Hd. reflexivity.
    - destruct (contains "date" (lower col)); [|reflexivity].
      pose proof (positions_occurrences col (columns df) 0) as Hlen.
      destruct (positions col (columns df) 0) as [|i [|j l]];
        cbn in Hlen; try lia.
      destruct (is_object (dtypes df !! i)) eqn:Hobj; [|reflexivity].
      rewrite (Ht i Hobj). reflexivity. }
  rewrite H1. apply IH. intros c Hc. apply H. right. exact Hc.
Qed.

Lemma kept_rows_length (df : frame) :
  (length (kept_rows df) <= length (rows df))%nat.
Proof.
  unfold kept_rows. induction (rows df) as [|r rs IH]; cbn; [lia|].
  destruct (negb (forallb is_na r)); cbn; lia.
Qed.

Lemma prepare_tidied E df :
  prepare E df = handle_date_columns E (columns (tidied df)) (tidied df).
Proof. reflexivity. Qed.


(** X17.  When the cleaned column names are pairwise distinct, the
    preparation of a frame does not raise; the frame that reaches the store
    has the cleaned names as its columns, in order, and as many rows as the
    read frame has rows that are not entirely empty (so never more rows
    than were read). *)
Theorem prepare_shape E (df : frame) :
  NoDup (map clean_column (columns df)) ->
  exists out,
    prepare E df = Ok out /\
    columns out = map clean_column (columns df) /\
    length (rows out) = length (kept_rows df) /\
    (length (rows out) <= length (rows df))%nat.
Proof.
  intros Hnd. rewrite prepare_tidied.
  pose proof (handle_date_columns_shape E (columns (tidied df)) (tidied df)) as H.
  destruct (handle_date_columns E (columns (tidied df)) (tidied df)) as [out|e].
  - destruct H as [Hc Hr]. exists out. split; [reflexivity|].
    split; [exact Hc|]. split; [exact Hr|].
    rewrite Hr. apply kept_rows_length.
  - destruct H as [_ (c & Hin & _ & Ho)]. exfalso. apply Ho.
    apply occurrences_NoDup; assumption.
Qed.

Lemma prepare_shape_witness :
  exists out,
    prepare csv_store orders_b = Ok out /\
    columns out = ["order_id"; "note"] /\
    length (rows out) = 2%nat /\
    (length (rows out) <= 3)%nat.
Proof.
  apply (prepare_shape csv_store orders_b).
  refine (bool_decide_unpack _ _); vm_compute; exact I.
Defined.

(** X18.  When a cleaned column name that contains ["date"] occurs
    twice or more, the preparation raises [AttributeError] (the selection
    [df[col]] is then a frame, which has no [dtype]), so the load of such a
    file fails. *)
Theorem prepare_repeated_date_label E (df : frame) (c : string) :
  contains "date" (lower c) = true ->
  (2 <= occurrences c (map clean_column (columns df)))%nat ->
  prepare E df = Raise AttributeError.
Proof.
  intros Hd Ho. rewrite prepare_tidied.
  apply handle_date_columns_raises with (c := c);
    [|exact Hd|change (columns (tidied df)) with (map clean_column (columns df)); lia].
  change (columns (tidied df)) with (map clean_column (columns df)).
  unfold occurrences in Ho.
  destruct (List.filter (fun x => String.eqb x c) (map clean_column (columns df)))
    as [|y l] eqn:Hf; [cbn in Ho; lia|].
  assert (Hy : In y (List.filter (fun x => String.eqb x c)
                       (map clean_column (columns df))))
    by (rewrite Hf; left; reflexivity).
  apply filter_In in Hy. destruct Hy as [Hy1 Hy2].
  apply String.eqb_eq in Hy2. subst y. exact Hy1.
Qed.

Lemma prepare_repeated_date_label_witness :
  prepare csv_store orders_twice_dated = Raise AttributeError.
Proof.
  apply (prepare_repeated_date_label csv_store orders_twice_dated "order_date");
    [reflexivity | vm_compute; lia].
Defined.

(** X19.  When no cleaned column name contains ["date"], the frame
    that reaches the store is the read frame with its columns renamed and
    its empty rows dropped, and nothing else: no value and no column type is
    changed, even where names repeat. *)
Theorem prepare_without_dates E (df : frame) :
  (forall c, In c (map clean_column (columns df)) ->
             contains "date" (lower c) = false) ->
  prepare E df = Ok (tidied df).
Proof.
  intros H. rewrite prepare_tidied. apply handle_date_columns_idle.
  intros c Hc. left. apply H. exact Hc.
Qed.

Lemma prepare_without_dates_witness :
  prepare csv_store orders_a = Ok (tidied orders_a).
Proof.
  apply (prepare_without_dates csv_store orders_a).
  intros c [<-|[<-|[]]]; reflexivity.
Defined.

(** X20.  When no date can be read ([pd.to_datetime] always fails)
    and the cleaned column names are pairwise distinct, the preparation
    keeps the date columns as text: the frame that reaches the store is the
    read frame with its columns renamed and its empty rows dropped. *)
Theorem prepare_unreadable_dates E (df : frame) :
  NoDup (map clean_column (columns df)) ->
  (forall cells, to_datetime E cells = None) ->
  prepare E df = Ok (tidied df).
Proof.
  intros Hnd Hno. rewrite prepare_tidied. apply handle_date_columns_idle.
  intros c Hc. right. split.
  - apply occurrences_NoDup; assumption.
  - intros i _. apply Hno.
Qed.

Lemma prepare_unreadable_dates_witness :
  prepare csv_store orders_dated = Ok (tidied orders_dated).
Proof.
  apply (prepare_unreadable_dates csv_store orders_dated).
  - refine (bool_decide_unpack _ _); vm_compute; exact I.
  - reflexivity.
Defined.

End PrepareFacts.

(** ** Loading a directory *)

Module DirectoryFacts.
Import Run RunFacts PyStr Loader LoaderAll Obs Obs2 Fixtures Samples LoaderFacts PrepareFacts.

Lemma reads_app (t1 t2 : list event) :
  reads (t1 ++ t2) = (reads t1 ++ reads t2)%list.
Proof. unfold reads. apply flat_map_app. Qed.

(** A load always returns, reads its file once and touches the tables only
    when it reports success. *)
Lemma load_csv_file_outcome E csv_path table_name w :
  exists ok w',
    load_csv_file E csv_path table_name w = (Ok ok, w') /\
    reads (trace w') = (reads (trace w) ++ [csv_path])%list /\
    queries (trace w') = queries (trace w) /\
    (ok = false -> tables w' = tables w).
Proof.
  rewrite load_csv_file_run.
  destruct (read_csv E (trace w) csv_path) as [raw|].
  - destruct (prepare E raw) as [df|e].
    + destruct (db_accepts E _ _ df).
      * eexists _, _. split; [reflexivity|]. cbn [trace tables].
        rewrite reads_app, queries_app. cbn. rewrite app_nil_r.
        split; [reflexivity|]. split; [reflexivity|]. discriminate.
      * eexists _, _. split; [reflexivity|]. cbn [trace tables].
        rewrite reads_app, queries_app. cbn. rewrite app_nil_r.
        split; [reflexivity|]. split; reflexivity.
    + eexists _, _. split; [reflexivity|]. cbn [trace tables].
      rewrite reads_app, queries_app. cbn. rewrite app_nil_r.
      split; [reflexivity|]. split; reflexivity.
  - eexists _, _. split; [reflexivity|]. cbn [trace tables].
    rewrite reads_app, queries_app. cbn. rewrite app_nil_r.
    split; [reflexivity|]. split; reflexivity.
Qed.

Lemma count_loads_outcome E csv_files n w :
  exists m w',
    count_loads E csv_files n w = (Ok m, w') /\
    (n <= m <= n + length csv_files)%nat /\
    reads (trace w') = (reads (trace w) ++ csv_files)%list /\
    queries (trace w') = queries (trace w) /\
    (m = n -> tables w' = tables w).
Proof.
  revert n w. induction csv_files as [|p rest IH]; intros n w.
  - exists n, w. cbn. rewrite app_nil_r. repeat split; lia.
  - destruct (load_csv_file_outcome E p None w) as (ok & w1 & Hrun & Hr & Hq & Ht).
    cbn [count_loads]. unfold bind at 1. rewrite Hrun.
    destruct (IH (if ok then S n else n) w1) as (m & w' & Hrun' & Hm & Hr' & Hq' & Ht').
    exists m, w'. split; [exact Hrun'|].
    split; [destruct ok; cbn [length]; lia|].
    split; [rewrite Hr', Hr, <- app_assoc; reflexivity|].
    split; [congruence|].
    intros ->. destruct ok; [lia|].
    rewrite Ht' by reflexivity. apply Ht. reflexivity.
Qed.

Lemma log_run lv msg e w :
  log lv msg e w = (Ok tt, mkWorld (trace w ++ [EvLog lv msg e])
                                   (products w) (reviews w) (tables w)).
Proof. reflexivity. Qed.

(** X21.  [load_all_csv_files] never raises and never queries the
    store.  It returns nothing ([None]) exactly when the directory is
    missing or holds no CSV file, and then leaves the tables as they were;
    a missing directory reads no file.  Otherwise it reads every file
    found once, in order, and returns a count that is at most the number
    of files; a count of 0 means that no table was touched. *)
Theorem load_all_total E data_directory exists_ csv_files w :
  exists r w',
    load_all_csv_files E data_directory exists_ csv_files w = (Ok r, w') /\
    reads (trace w') = (reads (trace w) ++ if exists_ then csv_files else [])%list /\
    queries (trace w') = queries (trace w) /\
    match r with
    | None => (exists_ = false \/ csv_files = []) /\ tables w' = tables w
    | Some n =>
        exists_ = true /\ csv_files <> [] /\ (n <= length csv_files)%nat /\
        (n = 0%nat -> tables w' = tables w)
    end.
Proof.
  unfold load_all_csv_files. destruct exists_; cbn [negb].
  - destruct csv_files as [|p rest].
    + eexists _, _. split; [reflexivity|]. cbn [trace tables].
      rewrite reads_app, queries_app. cbn. rewrite !app_nil_r.
      repeat split. right. reflexivity.
    + unfold bind at 1. rewrite log_run. unfold bind at 1.
      match goal with |- context [count_loads E ?l 0 ?w0] =>
        destruct (count_loads_outcome E l 0 w0) as (m & w' & Hrun & Hm & Hr & Hq & Ht)
      end.
      rewrite Hrun. unfold bind at 1. rewrite log_run.
      eexists _, _. split; [reflexivity|]. cbn [trace tables].
      rewrite reads_app, queries_app, Hr, Hq. cbn [trace].
      rewrite reads_app, queries_app. cbn. rewrite !app_nil_r.
      split; [reflexivity|]. split; [reflexivity|].
      split; [reflexivity|]. split; [discriminate|].
      split; [cbn in Hm; lia|].
      intros ->. rewrite Ht by reflexivity. reflexivity.
  - eexists _, _. split; [reflexivity|]. cbn [trace tables].
    rewrite reads_app, queries_app. cbn. rewrite !app_nil_r.
    repeat split. left. reflexivity.
Qed.

Lemma count_loads_app E l1 l2 n w :
  count_loads E (l1 ++ l2) n w =
  match count_loads E l1 n w with
  | (Ok m, w1) => count_loads E l2 m w1
  | (Raise e, w1) => (Raise e, w1)
  end.
Proof.
  revert n w. induction l1 as [|p l1 IH]; intros n w; [reflexivity|].
  cbn [count_loads app]. unfold bind.
  destruct (load_csv_file E p None w) as [[ok|e] w1]; [|reflexivity].
  apply IH.
Qed.

Section Loadable.
Variable E : env.
Variable raw out : string -> frame.
Variable csv_files : list string.
Hypothesis Hread : forall t p, In p csv_files -> read_csv E t p = Some (raw p).
Hypothesis Hprepare : forall p, In p csv_files -> prepare E (raw p) = Ok (out p).
Hypothesis Hstore :
  forall t p, In p csv_files -> db_accepts E t (table_of_path p) (out p) = true.

Lemma count_loads_loadable files n w :
  (forall p, In p files -> In p csv_files) ->
  exists w',
    count_loads E files n w = (Ok (n + length files)%nat, w') /\
    tables w' =
      fold_left (fun T p => <[table_of_path p := out p]> T) files (tables w).
Proof.
  revert n w. induction files as [|p rest IH]; intros n w Hsub.
  - exists w. cbn. rewrite Nat.add_0_r. split; reflexivity.
  - assert (Hp : In p csv_files) by (apply Hsub; left; reflexivity).
    cbn [count_loads fold_left]. unfold bind at 1.
    rewrite load_csv_file_run, (Hread _ _ Hp), (Hprepare _ Hp), (Hstore _ _ Hp).
    match goal with |- context [count_loads E rest ?k ?w0] =>
      destruct (IH k w0) as (w' & Hrun & Ht)
    end.
    { intros q Hq. apply Hsub. right. exact Hq. }
    exists w'. rewrite Hrun. cbn [length]. rewrite Ht. cbn [tables].
    split; [f_equal; f_equal; lia|reflexivity].
Qed.

End Loadable.

(** X22.  When every file found can be read, prepared and written,
    [load_all_csv_files] returns the number of files, and the tables it
    leaves are those obtained by writing each prepared frame under the
    table name of its file, in file order: of two files with the same
    table name the later one replaces the earlier. *)
Theorem load_all_in_file_order E data_directory (raw out : string -> frame)
    csv_files w :
  csv_files <> [] ->
  (forall t p, In p csv_files -> read_csv E t p = Some (raw p)) ->
  (forall p, In p csv_files -> prepare E (raw p) = Ok (out p)) ->
  (forall t p, In p csv_files ->
     db_accepts E t (table_of_path p) (out p) = true) ->
  exists w',
    load_all_csv_files E data_directory true csv_files w
      = (Ok (Some (length csv_files)), w') /\
    tables w' =
      fold_left (fun T p => <[table_of_path p := out p]> T) csv_files (tables w).
Proof.
  intros Hne Hread Hprep Hstore.
  unfold load_all_csv_files. cbn [negb].
  destruct csv_files as [|p rest] eqn:Hfiles; [congruence|].
  rewrite <- Hfiles in *. unfold bind at 1. rewrite log_run. unfold bind at 1.
  match goal with |- context [count_loads E csv_files 0 ?w0] =>
    destruct (count_loads_loadable E raw out csv_files Hread Hprep Hstore
                csv_files 0 w0) as (w' & Hrun & Ht)
  end.
  { auto. }
  rewrite Hrun. unfold bind at 1. rewrite log_run.
  eexists. split; [reflexivity|]. cbn [tables]. rewrite Ht. reflexivity.
Qed.

Lemma load_all_in_file_order_witness :
  exists w',
    load_all_csv_files csv_store "data" true ["data/a.csv"; "data/b.csv"] initial_world
      = (Ok (Some 2%nat), w') /\
    tables w' = <["b" := written "data/b.csv"]> (<["a" := written "data/a.csv"]> ∅).
Proof.
  apply (load_all_in_file_order csv_store "data" stored written
           ["data/a.csv"; "data/b.csv"] initial_world).
  - discriminate.
  - intros t p [<-|[<-|[]]]; reflexivity.
  - intros p [<-|[<-|[]]]; reflexivity.
  - reflexivity.
Defined.

(** X23.  Whatever happens to the files before it, when the last
    file found can be read, prepared and written, [load_all_csv_files]
    counts at least one success and the table named after that file holds
    its prepared frame at the end. *)
Theorem load_all_last_file_wins E data_directory earlier p (raw out : frame) w :
  (forall t, read_csv E t p = Some raw) ->
  prepare E raw = Ok out ->
  (forall t, db_accepts E t (table_of_path p) out = true) ->
  exists n w',
    load_all_csv_files E data_directory true (earlier ++ [p]) w
      = (Ok (Some (S n)), w') /\
    tables w' !! table_of_path p = Some out.
Proof.
  intros Hread Hprep Hstore.
  unfold load_all_csv_files. cbn [negb].
  destruct (earlier ++ [p])%list as [|q rest] eqn:Hfiles;
    [destruct earlier; discriminate|].
  rewrite <- Hfiles. unfold bind at 1. rewrite log_run. unfold bind at 1.
  rewrite count_loads_app.
  match goal with |- context [count_loads E earlier 0 ?w0] =>
    destruct (count_loads_outcome E earlier 0 w0) as (m & w1 & Hrun & _)
  end.
  rewrite Hrun. cbn [count_loads]. unfold bind at 1.
  rewrite load_csv_file_run, Hread, Hprep, Hstore.
  unfold ret at 1. unfold bind at 1. rewrite log_run.
  eexists _, _. split; [reflexivity|]. cbn [tables].
  apply lookup_insert_eq.
Qed.

Lemma load_all_last_file_wins_witness :
  exists n w',
    load_all_csv_files csv_store "data" true (["data/old/b.csv"] ++ ["data/b.csv"])
      initial_world = (Ok (Some (S n)), w') /\
    tables w' !! "b" = Some (written "data/b.csv").
Proof.
  apply (load_all_last_file_wins csv_store "data" ["data/old/b.csv"] "data/b.csv"
           orders_b (written "data/b.csv") initial_world); reflexivity.
Defined.



End DirectoryFacts.

(** ** From a path to a table name *)

Module PathFacts.
Import PyStr Loader Obs2.

Lemma append_empty (s : string) : s ++ "" = s.
Proof.
  induction s as [|c s IH]; [reflexivity|].
  change (String c s ++ "") with (String c (s ++ "")). rewrite IH. reflexivity.
Qed.

Lemma append_assoc (s1 s2 s3 : string) : (s1 ++ s2) ++ s3 = s1 ++ (s2 ++ s3).
Proof.
  induction s1 as [|c s1 IH]; [reflexivity|].
  change ((String c s1 ++ s2) ++ s3) with (String c ((s1 ++ s2) ++ s3)).
  change (String c s1 ++ (s2 ++ s3)) with (String c (s1 ++ (s2 ++ s3))).
  rewrite IH. reflexivity.
Qed.

Lemma split_on_from_cons (sep : ascii) (cur : string) (c : ascii) (s : string) :
  split_on_from sep cur (String c s) =
  if Ascii.eqb c sep then cur :: split_on_from sep "" s
  else split_on_from sep (cur ++ String c "") s.
Proof. reflexivity. Qed.

Lemma split_on_from_plain (sep : ascii) (cur s : string) :
  count_char sep s = 0%nat -> split_on_from sep cur s = [cur ++ s].
Proof.
  revert cur. induction s as [|c s IH]; intros cur H.
  - cbn. rewrite append_empty. reflexivity.
  - rewrite split_on_from_cons. cbn [count_char] in H.
    destruct (Ascii.eqb c sep); [discriminate|].
    rewrite IH by exact H. rewrite append_assoc. reflexivity.
Qed.

Lemma split_on_from_last (sep : ascii) (cur s tail : string) :
  count_char sep tail = 0%nat ->
  split_on_from sep cur (s ++ String sep tail) =
  (split_on_from sep cur s ++ [tail])%list.
Proof.
  intros H. revert cur. induction s as [|c s IH]; intros cur.
  - change ("" ++ String sep tail) with (String sep tail).
    rewrite split_on_from_cons, Ascii.eqb_refl.
    rewrite split_on_from_plain by exact H. reflexivity.
  - change (String c s ++ String sep tail) with (String c (s ++ String sep tail)).
    rewrite !split_on_from_cons. destruct (Ascii.eqb c sep).
    + rewrite IH. reflexivity.
    + apply IH.
Qed.

Lemma split_on_from_nonempty (sep : ascii) (cur s : string) :
  split_on_from sep cur s <> [].
Proof.
  revert cur. induction s as [|c s IH]; intros cur; [discriminate|].
  rewrite split_on_from_cons. destruct (Ascii.eqb c sep); [discriminate|apply IH].
Qed.

Lemma join_split (sep : ascii) (cur s : string) :
  join (String sep "") (split_on_from sep cur s) = cur ++ s.
Proof.
  revert cur. induction s as [|c s IH]; intros cur.
  - cbn. rewrite append_empty. reflexivity.
  - rewrite split_on_from_cons. destruct (Ascii.eqb c sep) eqn:Hc.
    + apply Ascii.eqb_eq in Hc. subst c.
      specialize (IH ""). pose proof (split_on_from_nonempty sep "" s) as Hne.
      destruct (split_on_from sep "" s) as [|x l]; [congruence|].
      change (join (String sep "") (cur :: x :: l))
        with (cur ++ String sep "" ++ join (String sep "") (x :: l)).
      rewrite IH. reflexivity.
    + rewrite IH, append_assoc. reflexivity.
Qed.

Lemma path_name_last (dir name : string) :
  count_char "/" name = 0%nat ->
  path_name (dir ++ String "/" name) = name.
Proof.
  intros H. unfold path_name, split_on.
  rewrite split_on_from_last by exact H. apply last_last.
Qed.

(** X25.  For a file [dir/stem.ext] whose extension is not empty and
    holds no dot, the name of the path is [stem.ext], its stem is [stem]
    (further dots inside the stem are kept) and the table of the file is
    the stem in lower case with hyphens and spaces turned into
    underscores. *)
Theorem table_of_file_path (dir stem ext : string) :
  stem <> "" -> ext <> "" ->
  count_char "/" stem = 0%nat ->
  count_char "/" ext = 0%nat -> count_char "." ext = 0%nat ->
  let p := dir ++ String "/" (stem ++ String "." ext) in
  path_name p = stem ++ String "." ext /\
  path_stem p = stem /\
  table_of_path p = replace_char " " "_" (replace_char "-" "_" (lower stem)).
Proof.
  intros Hs He Hs1 He1 He2 p. subst p.
  assert (Hname : path_name (dir ++ String "/" (stem ++ String "." ext))
                  = stem ++ String "." ext).
  { apply path_name_last. rewrite NumberFacts.count_char_app. cbn [count_char].
    rewrite Hs1, He1. reflexivity. }
  assert (Hstem : path_stem (dir ++ String "/" (stem ++ String "." ext)) = stem).
  { unfold path_stem. rewrite Hname. unfold split_on.
    rewrite split_on_from_last by exact He2.
    pose proof (join_split "." "" stem) as Hj.
    pose proof (split_on_from_nonempty "." "" stem) as Hne.
    destruct (split_on_from "." "" stem) as [|x [|y l]]; [congruence| |].
    - cbn in Hj. subst x. cbn [app].
      destruct stem as [|c s]; [congruence|].
      cbn [List.last removelast]. destruct ext; [congruence|]. reflexivity.
    - cbn [app]. 
      change (List.last (x :: y :: (l ++ [ext])%list) "")
        with (List.last ((x :: y :: l) ++ [ext])%list "").
      change (removelast (x :: y :: (l ++ [ext])%list))
        with (removelast ((x :: y :: l) ++ [ext])%list).
      rewrite last_last, removelast_last.
      destruct ext; [congruence|]. cbn [is_empty].
      destruct x; [destruct l|]; exact Hj. }
  split; [exact Hname|]. split; [exact Hstem|].
  unfold table_of_path. rewrite Hstem. reflexivity.
Qed.

Lemma table_of_file_path_witness :
  path_name "data/raw/Order-Items 2024.csv" = "Order-Items 2024.csv" /\
  path_stem "data/raw/Order-Items 2024.csv" = "Order-Items 2024" /\
  table_of_path "data/raw/Order-Items 2024.csv" = "order_items_2024".
Proof.
  apply (table_of_file_path "data/raw" "Order-Items 2024" "csv");
    [discriminate | discriminate | reflexivity | reflexivity | reflexivity].
Defined.

End PathFacts.
